(** * Books service (src/api/main.ts): a shallow embedding and its properties

    The program is a small CRUD service over one module-level
    [Map<string, Book>].  The embedding keeps the shape of the source:

    - [Js]: JSON values as the parser returns them, JavaScript truthiness,
      property reads, object spread and the key comparison of a [Map];
    - [Books]: the [books] map, with the insertion order of a [Map];
    - [Oak]: the request and the response of a context, and the
      state-and-exception monad in which handlers and middleware run;
    - [Main]: the loader, the five route handlers, the middleware stack and
      the start-up sequence, in the order of the source.

    What the HTTP library and the runtime do (routing a method and a path
    to a handler, decoding the body, measuring time, generating UUIDs,
    reading the file) is not part of the program: it enters the model as
    fields of the request and as the outcome of the file read.

    [Spec] holds the vocabulary of the properties, [Sample] some data, and
    the remaining modules the facts: about objects and the map, about the
    stack, about each handler, and then, route by route, the properties of
    the service. *)

From Stdlib Require Import ZArith.
From stdpp Require Import base tactics option list strings pretty.

Set Warnings "-register-all".

Local Open Scope Z_scope.
Local Open Scope string_scope.
Local Open Scope list_scope.

(* ===================================================================== *)
(** ** JavaScript values                                                  *)
(* ===================================================================== *)

Module Js.

(** A value produced by [JSON.parse].  Numbers are the integer-valued ones
    ([year] is the only numeric field of a Book); an object is the list of
    its own properties in creation order (JavaScript enumerates index-like
    names first; nothing below depends on the order, properties are read by
    name). *)
Inductive json : Type :=
  | JNull
  | JBool (b : bool)
  | JNum (n : Z)
  | JStr (s : string)
  | JArr (items : list json)
  | JObj (props : list (string * json)).

(** A JavaScript value as the program sees it: [None] is [undefined]. *)
Definition jsval : Type := option json.

Abbreviation undefined := (@None json).

(** [!v] is [negb (truthy v)]. *)
Definition truthy (v : jsval) : bool :=
  match v with
  | None => false
  | Some JNull => false
  | Some (JBool b) => b
  | Some (JNum n) => negb (Z.eqb n 0)
  | Some (JStr s) => negb (String.eqb s "")
  | Some (JArr _) => true
  | Some (JObj _) => true
  end.

(** [typeof v === "object"]: true of [null], arrays and objects. *)
Definition typeof_object (v : jsval) : bool :=
  match v with
  | Some JNull | Some (JArr _) | Some (JObj _) => true
  | _ => false
  end.

(** *** Own properties of an object *)

Definition props : Type := list (string * json).

Fixpoint obj_get (name : string) (o : props) : jsval :=
  match o with
  | [] => None
  | (k, v) :: rest => if String.eqb k name then Some v else obj_get name rest
  end.

(** [o[name] = v]: an existing property keeps its place, a new one goes
    last. *)
Fixpoint obj_set (name : string) (v : json) (o : props) : props :=
  match o with
  | [] => [(name, v)]
  | (k, w) :: rest =>
      if String.eqb k name then (k, v) :: rest
      else (k, w) :: obj_set name v rest
  end.

Definition obj_keys (o : props) : list string := map fst o.

(** Errors that can be thrown.  [HttpError] is the library's typed error
    (what [context.throw] raises and [isHttpError] recognises). *)
Inductive error : Type :=
  | HttpError (status : nat) (message : string) (stack : option string)
  | TypeError (message : string)
  | URIError (message : string)
  | OtherError (message : string).

Definition isHttpError (e : error) : bool :=
  match e with HttpError _ _ _ => true | _ => false end.

Inductive result (A : Type) : Type :=
  | Ok (a : A)
  | Throw (e : error).
Arguments Ok {A} a.
Arguments Throw {A} e.

(** [v.name] for the property names the program reads ([id], [title],
    [author], [genre], [year], [summary]): none of them is an array index,
    [length] or a member of a built-in prototype, so only an object can
    have one; reading a property of [null] throws. *)
Definition get_prop (v : json) (name : string) : result jsval :=
  match v with
  | JNull =>
      Throw (TypeError ("Cannot read properties of null (reading '" ++ name ++ "')"))
  | JObj o => Ok (obj_get name o)
  | _ => Ok None
  end.

(** The own enumerable properties that [{...v}] copies: those of an
    object, the indexed elements of an array, the indexed characters of a
    string, nothing for any other value. *)
Fixpoint indexed {A} (mk : A -> json) (i : nat) (l : list A) : props :=
  match l with
  | [] => []
  | x :: rest => (pretty i, mk x) :: indexed mk (S i) rest
  end.

Definition own_props (v : jsval) : props :=
  match v with
  | Some (JObj o) => o
  | Some (JArr items) => indexed (fun x => x) 0 items
  | Some (JStr s) =>
      indexed (fun c => JStr (String c EmptyString)) 0 (String.list_ascii_of_string s)
  | _ => []
  end.

(** [{...target, ...src}] given the properties already in the literal:
    each own key of [src] is read from [src] and defined on the result, in
    key order. *)
Definition copy_key (src : props) (acc : props) (k : string) : props :=
  match obj_get k src with
  | Some v => obj_set k v acc
  | None => acc
  end.

Definition spread_into (target : props) (src : props) : props :=
  fold_left (copy_key src) (obj_keys src) target.

(** [SameValueZero] on parsed values, the key comparison of [Map].
    Primitives compare by value.  An array or object is compared by
    identity, and the program never presents the same one twice as a key,
    so such keys are equal to nothing. *)
Definition same_value_zero (a b : jsval) : bool :=
  match a, b with
  | None, None => true
  | Some JNull, Some JNull => true
  | Some (JBool x), Some (JBool y) => Bool.eqb x y
  | Some (JNum x), Some (JNum y) => Z.eqb x y
  | Some (JStr x), Some (JStr y) => String.eqb x y
  | _, _ => false
  end.

Definition primitive (v : jsval) : bool :=
  match v with
  | Some (JArr _) | Some (JObj _) => false
  | _ => true
  end.

End Js.

(* ===================================================================== *)
(** ** The [books] map                                                     *)
(* ===================================================================== *)

Module Books.
Import Js.

(** [new Map<string, Book>()]: entries in insertion order.  The declared
    types are not checked when the program runs, so a key is whatever
    value [book.id] was and a record is whatever JSON value was stored. *)
Definition store : Type := list (jsval * json).

Definition empty : store := [].

Fixpoint get (k : jsval) (m : store) : jsval :=
  match m with
  | [] => None
  | (k', v) :: rest => if same_value_zero k' k then Some v else get k rest
  end.

Fixpoint has (k : jsval) (m : store) : bool :=
  match m with
  | [] => false
  | (k', _) :: rest => if same_value_zero k' k then true else has k rest
  end.

(** [books.set(k, v)]: the entry of an existing key is overwritten where
    it stands, a new key is appended. *)
Fixpoint set (k : jsval) (v : json) (m : store) : store :=
  match m with
  | [] => [(k, v)]
  | (k', v') :: rest =>
      if same_value_zero k' k then (k', v) :: rest
      else (k', v') :: set k v rest
  end.

(** [books.delete(k)]: no entry of the key is left (a [Map] holds at most
    one). *)
Fixpoint delete (k : jsval) (m : store) : store :=
  match m with
  | [] => []
  | (k', v') :: rest =>
      if same_value_zero k' k then delete k rest
      else (k', v') :: delete k rest
  end.

Definition values (m : store) : list json := map snd m.

Definition size (m : store) : nat := length m.

(** The key a path parameter denotes. *)
Definition key (id : string) : jsval := Some (JStr id).

End Books.

(* ===================================================================== *)
(** ** Request, response and the handler monad                            *)
(* ===================================================================== *)

Module Oak.
Import Js.

(** The handler the router resolved the method and path to, with the
    [:id] path parameter where the route has one. *)
Inductive endpoint : Type :=
  | GetBooks
  | GetBook (id : string)
  | PostBooks
  | PutBook (id : string)
  | DeleteBook (id : string).

(** What the library makes of the path of the request.  Routes are matched
    on the decoded path, so a request that reaches a route handler has a
    path that decodes; so has a request that matches nothing.  A path with
    a malformed escape (such as [/%ff]) reaches no handler, and decoding it
    throws [URIError] with the given message; [refused] tells whether the
    router of the library fails with that error itself when it comes to
    match the path, or hands the request on. *)
Inductive resolution : Type :=
  | Routed (ep : endpoint) (path : string)
  | Unrouted (path : string)
  | Undecodable (message : string) (refused : bool).

(** What the program reads from [context.request] and from its runtime
    while one request is handled. *)
Record Request : Type := {
  method : string;
  url : string;
  resolved : resolution;
  hasBody : bool;
  (** the outcome of [await context.request.body.json()] *)
  body_json : result json;
  (** [context.request.accepts("json")] *)
  accepts_json : bool;
  (** what [uuid.generate()] returns *)
  uuid : string;
  (** the [stack] of an error that [context.throw] creates *)
  thrown_stack : option string;
  (** [Date.now() - start] around the inner middleware *)
  elapsed_ms : nat;
}.

(** The route the router matched, if any. *)
Definition matched (req : Request) : option endpoint :=
  match resolved req with
  | Routed ep _ => Some ep
  | Unrouted _ | Undecodable _ _ => None
  end.

(** [decodeURIComponent(context.request.url.pathname)] *)
Definition decodeURIComponent_pathname (req : Request) : result string :=
  match resolved req with
  | Routed _ path | Unrouted path => Ok path
  | Undecodable message _ => Throw (URIError message)
  end.

(** The decoded path of a request whose path decodes. *)
Definition pathname (req : Request) : string :=
  match decodeURIComponent_pathname req with
  | Ok path => path
  | Throw _ => ""
  end.

(** What [context.request.body()] would hand back: an object with a
    [value] to await. *)
Record called_body : Type := {
  value : result jsval;
}.

(** [context.request.body] is the body object of the library: the Create
    handler reads it as one and calls its [json()].  It is not a function,
    so the call [context.request.body()] of the Update handler throws. *)
Definition call_request_body (req : Request) : result called_body :=
  Throw (TypeError "context.request.body is not a function").

Record Response : Type := {
  status : option nat;
  body : jsval;
  headers : list (string * string);
  type : option string;
}.

Definition fresh_response : Response :=
  {| status := None; body := None; headers := []; type := None |}.

(** Modelled from the spec: the status the library reports for a response
    whose handler assigned none (its [Response] class is not part of the
    sources).  Section 6 gives 200 for the two GET routes, whose handlers
    only assign a body; a response with neither status nor body is 404. *)
Definition final_status (r : Response) : nat :=
  match status r with
  | Some s => s
  | None => match body r with Some _ => 200%nat | None => 404%nat end
  end.

Fixpoint header_get (name : string) (h : list (string * string)) : option string :=
  match h with
  | [] => None
  | (k, v) :: rest => if String.eqb k name then Some v else header_get name rest
  end.

Fixpoint header_set (name value : string) (h : list (string * string))
  : list (string * string) :=
  match h with
  | [] => [(name, value)]
  | (k, v) :: rest =>
      if String.eqb k name then (k, value) :: rest
      else (k, v) :: header_set name value rest
  end.

Inductive log_line : Type :=
  | LogText (s : string)
  | LogError (label : string) (e : error)
  | LogThrown (e : error).

(** Everything a handler can change: the module-level map, the response of
    the current context and the console. *)
Record world : Type := {
  books : Books.store;
  response : Response;
  console : list log_line;
}.

Definition initial (m : Books.store) : world :=
  {| books := m; response := fresh_response; console := [] |}.

(** A computation either completes or throws; what it changed before
    throwing stays changed. *)
Definition M (A : Type) : Type := world -> result A * world.

Definition ret {A} (a : A) : M A := fun w => (Ok a, w).

Definition bind {A B} (m : M A) (k : A -> M B) : M B :=
  fun w => match m w with
           | (Ok a, w') => k a w'
           | (Throw e, w') => (Throw e, w')
           end.

Definition throw {A} (e : error) : M A := fun w => (Throw e, w).

Definition lift {A} (r : result A) : M A := fun w => (r, w).

(** An [if] without [else]. *)
Definition when (b : bool) (m : M unit) : M unit :=
  fun w => if b then m w else (Ok tt, w).

Definition try_catch {A} (m : M A) (handler : error -> M A) : M A :=
  fun w => match m w with
           | (Ok a, w') => (Ok a, w')
           | (Throw e, w') => handler e w'
           end.

#[global] Instance M_ret : MRet M := @ret.
#[global] Instance M_bind : MBind M := fun A B k m => bind m k.

Definition read_books : M Books.store := fun w => (Ok (books w), w).

Definition write_books (m : Books.store) : M unit :=
  fun w => (Ok tt, {| books := m; response := response w; console := console w |}).

Definition modify_response (f : Response -> Response) : M unit :=
  fun w => (Ok tt, {| books := books w; response := f (response w);
                      console := console w |}).

Definition set_status (s : nat) : M unit :=
  modify_response (fun r => {| status := Some s; body := body r;
                               headers := headers r; type := type r |}).

Definition set_body (b : json) : M unit :=
  modify_response (fun r => {| status := status r; body := Some b;
                               headers := headers r; type := type r |}).

Definition set_type (t : string) : M unit :=
  modify_response (fun r => {| status := status r; body := body r;
                               headers := headers r; type := Some t |}).

Definition set_header (name value : string) : M unit :=
  modify_response (fun r => {| status := status r; body := body r;
                               headers := header_set name value (headers r);
                               type := type r |}).

Definition get_header (name : string) : M (option string) :=
  fun w => (Ok (header_get name (headers (response w))), w).

Definition console_log (l : log_line) : M unit :=
  fun w => (Ok tt, {| books := books w; response := response w;
                      console := console w ++ [l] |}).

(** A middleware receives the request and the rest of the stack. *)
Definition middleware : Type := Request -> M unit -> M unit.

(** [app.use(m1); app.use(m2); ...]: each middleware runs with the ones
    registered after it as its [next]. *)
Fixpoint compose (stack : list middleware) (req : Request) : M unit :=
  match stack with
  | [] => ret tt
  | m :: rest => m req (compose rest req)
  end.

End Oak.

(* ===================================================================== *)
(** ** The program                                                        *)
(* ===================================================================== *)

Module Main.
Import Js Oak.

(** *** CORS middleware *)

Definition cors : middleware := fun req next =>
  set_header "Access-Control-Allow-Origin" "http://localhost:3000";;
  set_header "Access-Control-Allow-Methods" "GET, POST, PUT, DELETE, OPTIONS";;
  set_header "Access-Control-Allow-Headers" "Content-Type, Authorization";;
  if String.eqb (method req) "OPTIONS" then set_status 204 else next.

(** *** Loader *)

(** What reading and parsing [../data/simple_book.json] came to. *)
Inductive book_file : Type :=
  | Unreadable (e : error)
  | Malformed (e : error)
  | Parsed (v : json).

Definition readTextFile_parse (f : book_file) : result json :=
  match f with
  | Unreadable e => Throw e
  | Malformed e => Throw e
  | Parsed v => Ok v
  end.

(** [jsonData.forEach((book) => { books.set(book.id, book); })] over the
    elements of an array. *)
Fixpoint forEach_set (items : list json) : M unit :=
  match items with
  | [] => mret tt
  | book :: rest =>
      id ← lift (get_prop book "id");
      m ← read_books;
      write_books (Books.set id book m);;
      forEach_set rest
  end.

Definition loadBooksData (f : book_file) : M unit :=
  try_catch
    (jsonData ← lift (readTextFile_parse f);
     match jsonData with
     | JArr items => forEach_set items
     | JNull => throw (TypeError "Cannot read properties of null (reading 'forEach')")
     | _ => throw (TypeError "jsonData.forEach is not a function")
     end)
    (fun error => console_log (LogError "Error reading books.json:" error)).

(** *** Not found handler *)

Definition notFound (req : Request) : M unit :=
  set_status 404;;
  set_body (JStr ("<html><body><h1>404 - Not Found</h1><p>Path <code>"
                  ++ url req ++ "</code> not found.")).

(** *** Route handlers *)

(** GET /books *)
Definition handle_get_books (req : Request) : M unit :=
  m ← read_books;
  set_body (JArr (Books.values m)).

(** GET /books/:id *)
Definition handle_get_book (bookId : string) (req : Request) : M unit :=
  m ← read_books;
  let book := Books.get (Books.key bookId) m in
  match book with
  | Some b => if truthy book then set_body b else notFound req
  | None => notFound req
  end.

(** [!newBook.title || !newBook.author || ...], left to right, stopping at
    the first falsy property. *)
Fixpoint any_falsy (v : json) (names : list string) : result bool :=
  match names with
  | [] => Ok false
  | name :: rest =>
      match get_prop v name with
      | Throw e => Throw e
      | Ok p => if truthy p then any_falsy v rest else Ok true
      end
  end.

Definition required_fields : list string :=
  ["title"; "author"; "genre"; "year"; "summary"].

(** [(!newBook.id) ? uuid.generate() : newBook.id] *)
Definition choose_id (supplied : jsval) (generated : string) : json :=
  match supplied with
  | Some v => if truthy supplied then v else JStr generated
  | None => JStr generated
  end.

(** POST /books *)
Definition handle_post_books (req : Request) : M unit :=
  when (negb (hasBody req))
    (throw (HttpError 400 "Bad Request: No data provided" (thrown_stack req)));;
  newBook ← lift (body_json req);
  missing ← lift (any_falsy newBook required_fields);
  when missing
    (throw (HttpError 400 "Bad Request: Missing required fields"
              (thrown_stack req)));;
  supplied ← lift (get_prop newBook "id");
  let id := choose_id supplied (uuid req) in
  let book := JObj (spread_into [("id", id)] (own_props (Some newBook))) in
  m ← read_books;
  write_books (Books.set (Some id) book m);;
  set_status 201;;
  set_body book.

(** PUT /books/:id *)
Definition handle_put_book (id : string) (req : Request) : M unit :=
  if negb (truthy (Some (JStr id))) then
    set_status 400;;
    set_body (JObj [("error", JStr "ID is required")])
  else
    body ← lift (call_request_body req);
    book ← lift (value body);
    if negb (truthy book) || negb (typeof_object book) then
      set_status 400;;
      set_body (JObj [("error", JStr "Invalid book data")])
    else
      m ← read_books;
      if negb (Books.has (Books.key id) m) then
        set_status 404;;
        set_body (JObj [("error", JStr "Book not found")])
      else
        let merged :=
          spread_into (spread_into [] (own_props (Books.get (Books.key id) m)))
                      (own_props book) in
        write_books (Books.set (Books.key id) (JObj merged) m);;
        set_status 200;;
        set_body (JObj [("message", JStr "Book updated successfully")]).

(** DELETE /books/:id *)
Definition handle_delete_book (bookId : string) (req : Request) : M unit :=
  m ← read_books;
  if truthy (Some (JStr bookId)) && Books.has (Books.key bookId) m then
    write_books (Books.delete (Books.key bookId) m);;
    set_status 204
  else notFound req.

(** The handler registered for each route. *)
Definition dispatch (ep : endpoint) : Request -> M unit :=
  match ep with
  | GetBooks => handle_get_books
  | GetBook id => handle_get_book id
  | PostBooks => handle_post_books
  | PutBook id => handle_put_book id
  | DeleteBook id => handle_delete_book id
  end.

(** [router.routes()]: the handler of the matched route runs and the
    stack below is not entered (no handler calls [next]); a request that
    matches no route goes on.  On a path that does not decode the router
    either fails with the decoding error or hands the request on, as the
    library has it. *)
Definition routes : middleware := fun req next =>
  match resolved req with
  | Routed ep _ => dispatch ep req
  | Unrouted _ => next
  | Undecodable message refused =>
      if refused then throw (URIError message) else next
  end.

(** *** Application middleware *)

Definition newline : string := String (Ascii.ascii_of_nat 10) EmptyString.

(** Logger *)
Definition logger : middleware := fun req next =>
  next;;
  rt ← get_header "X-Response-Time";
  path ← lift (decodeURIComponent_pathname req);
  console_log (LogText (method req ++ " " ++ path ++ " - "
                        ++ default "null" rt)).

(** Response time *)
Definition response_time : middleware := fun req next =>
  next;;
  set_header "X-Response-Time" (pretty (elapsed_ms req) ++ "ms").

(** Error handler *)
Definition error_handler : middleware := fun req next =>
  try_catch next (fun err =>
    match err with
    | HttpError status message stack =>
        set_status status;;
        if accepts_json req then
          set_body (JObj ([("message", JStr message);
                           ("status", JNum (Z.of_nat status))]
                          ++ match stack with
                             | Some s => [("stack", JStr s)]
                             | None => []
                             end));;
          set_type "json"
        else
          set_body (JStr (pretty status ++ " " ++ message ++ newline ++ newline
                          ++ default "" stack));;
          set_type "text/plain"
    | _ => console_log (LogThrown err);; throw err
    end).

Section App.

(** [router.allowedMethods()] is the library's own middleware; the program
    only places it in the stack.  It lets the rest of the stack run and
    then may rewrite the response (to 405 or 501 with an [Allow] header):
    [allowedMethods req] is that rewriting. *)
Variable allowedMethods : Request -> Response -> Response.

Definition allowed_methods : middleware := fun req next =>
  next;;
  modify_response (allowedMethods req).

Definition app : Request -> M unit :=
  compose [logger; response_time; error_handler; cors; routes;
           allowed_methods; (fun req _ => notFound req)].

(** One request against the map [m]: the outcome of the stack, the map
    afterwards and the response left in the context. *)
Definition serve (m : Books.store) (req : Request) : result unit * world :=
  app req (initial m).

(** The program as a transition system on the map. *)
Inductive operation : Type :=
  | Load (f : book_file)
  | Serve (req : Request).

Definition step (m : Books.store) (o : operation) : Books.store :=
  match o with
  | Load f => books (snd (loadBooksData f (initial m)))
  | Serve req => books (snd (serve m req))
  end.

Definition run (ops : list operation) (m : Books.store) : Books.store :=
  fold_left step ops m.

End App.

(** *** Start-up: load the data, then listen *)

Definition listen (serverType : string) : M unit :=
  console_log (LogText ("Start listening on " ++ "127.0.0.1:8000"));;
  console_log (LogText ("  using HTTP server: " ++ serverType)).

Definition startup (f : book_file) (serverType : string) : result unit * world :=
  (loadBooksData f;; listen serverType) (initial Books.empty).

End Main.

(* ===================================================================== *)
(** ** Vocabulary of the properties                                       *)
(* ===================================================================== *)

Module Spec.
Import Js Oak Main.

(** What one served request leaves behind. *)
Definition outcome : Type := result unit * world.

Definition completed (x : outcome) : Prop := fst x = Ok tt.
Definition status_of (x : outcome) : nat := final_status (response (snd x)).
Definition body_of (x : outcome) : jsval := body (response (snd x)).
Definition books_of (x : outcome) : Books.store := books (snd x).
Definition header_of (name : string) (x : outcome) : option string :=
  header_get name (headers (response (snd x))).

(** A field of a stored record or of a payload; [undefined] when the value
    has no such property. *)
Definition field (v : json) (name : string) : jsval :=
  match v with
  | JObj o => obj_get name o
  | _ => None
  end.

(** *** Book payloads, as section 3 of the specification types them *)

Definition is_string (v : jsval) : bool :=
  match v with Some (JStr _) => true | _ => false end.

Definition is_nonempty_string (v : jsval) : bool :=
  match v with Some (JStr s) => negb (String.eqb s "") | _ => false end.

Definition is_integer (v : jsval) : bool :=
  match v with Some (JNum _) => true | _ => false end.

(** [title], [author], [genre]: non-empty strings; [year]: integer;
    [summary]: string; [id]: a string when there is one. *)
Definition valid_payload (p : props) : bool :=
  is_nonempty_string (obj_get "title" p)
  && is_nonempty_string (obj_get "author" p)
  && is_nonempty_string (obj_get "genre" p)
  && is_integer (obj_get "year" p)
  && is_string (obj_get "summary" p)
  && match obj_get "id" p with
     | None => true
     | Some (JStr _) => true
     | Some _ => false
     end.

(** The payloads the Create handler lets through: the five required
    properties are truthy. *)
Definition accepted_payload (p : props) : Prop :=
  forall f, In f required_fields -> truthy (obj_get f p) = true.

(** A structured body is a JSON object, such as [{message, status}] or
    [{error}], as opposed to a page of text. *)
Definition structured (b : jsval) : bool :=
  match b with Some (JObj _) => true | _ => false end.

(** The page [notFound] writes. *)
Definition not_found_page (req : Request) : json :=
  JStr ("<html><body><h1>404 - Not Found</h1><p>Path <code>"
        ++ url req ++ "</code> not found.").

(** The record Create builds from the payload [p], and the key it stores
    it under. *)
Definition created_id (req : Request) (p : props) : json :=
  choose_id (obj_get "id" p) (uuid req).

Definition created_book (req : Request) (p : props) : props :=
  spread_into [("id", created_id req p)] p.

(** The keys of the map, in insertion order. *)
Definition keys (m : Books.store) : list jsval := map fst m.

(** The [type] and the console left by a served request. *)
Definition type_of (x : outcome) : option string := type (response (snd x)).
Definition console_of (x : outcome) : list log_line := console (snd x).

(** The line the logger writes and the value of the response-time header. *)
Definition response_time_value (req : Request) : string :=
  pretty (elapsed_ms req) ++ "ms".

Definition request_line (req : Request) : log_line :=
  LogText (method req ++ " " ++ pathname req ++ " - "
           ++ response_time_value req).

(** The two bodies the error handler writes for a typed error. *)
Definition error_json (s : nat) (message : string) (stack : option string) : json :=
  JObj ([("message", JStr message); ("status", JNum (Z.of_nat s))]
        ++ match stack with
           | Some t => [("stack", JStr t)]
           | None => []
           end).

Definition error_text (s : nat) (message : string) (stack : option string) : json :=
  JStr (pretty s ++ " " ++ message ++ newline ++ newline ++ default "" stack).

(** A route that only reads the map, or no route at all. *)
Definition reads_only (ep : option endpoint) : bool :=
  match ep with
  | None | Some GetBooks | Some (GetBook _) => true
  | Some PostBooks | Some (PutBook _) | Some (DeleteBook _) => false
  end.

(** *** Invariants of the map *)

(** Every record sits under the key that its [id] field names. *)
Definition id_is_key (m : Books.store) : Prop :=
  forall k v, In (k, v) m -> field v "id" = k.

(** No two entries have the same key. *)
Fixpoint unique_keys (m : Books.store) : Prop :=
  match m with
  | [] => True
  | (k, _) :: rest => Books.has k rest = false /\ unique_keys rest
  end.

(** Operations that leave [id] alone: every one but a Create whose payload
    has an [id] property that is falsy. *)
Definition keeps_id (o : operation) : Prop :=
  match o with
  | Load _ => True
  | Serve req =>
      match matched req with
      | Some PostBooks =>
          forall v, body_json req = Ok v ->
            field v "id" = None \/ truthy (field v "id") = true
      | _ => True
      end
  end.

(** The loader's puts: [books.set(book.id, book)] for each entry. *)
Definition put_all (items : list json) (m : Books.store) : Books.store :=
  fold_left (fun acc b => Books.set (field b "id") b acc) items m.

(** The entries before the first [null] one. *)
Fixpoint before_null (items : list json) : list json :=
  match items with
  | [] => []
  | JNull :: _ => []
  | b :: rest => b :: before_null rest
  end.

Definition has_null (items : list json) : bool :=
  existsb (fun b => match b with JNull => true | _ => false end) items.

(** The map after [loadBooksData]: the puts of the entries of an array,
    nothing when there is no array to go through. *)
Definition loaded (f : book_file) (m : Books.store) : Books.store :=
  match f with
  | Parsed (JArr items) => put_all (before_null items) m
  | _ => m
  end.

(** The error [loadBooksData] catches, if any. *)
Definition load_error (f : book_file) : option error :=
  match f with
  | Unreadable e | Malformed e => Some e
  | Parsed (JArr items) =>
      if has_null items
      then Some (TypeError "Cannot read properties of null (reading 'id')")
      else None
  | Parsed JNull =>
      Some (TypeError "Cannot read properties of null (reading 'forEach')")
  | Parsed _ => Some (TypeError "jsonData.forEach is not a function")
  end.

Definition load_log (f : book_file) : list log_line :=
  match load_error f with
  | Some e => [LogError "Error reading books.json:" e]
  | None => []
  end.

Definition listen_log (serverType : string) : list log_line :=
  [LogText "Start listening on 127.0.0.1:8000";
   LogText ("  using HTTP server: " ++ serverType)].

(** The names and values of the CORS headers. *)
Definition cors_headers : list (string * string) :=
  [("Access-Control-Allow-Origin", "http://localhost:3000");
   ("Access-Control-Allow-Methods", "GET, POST, PUT, DELETE, OPTIONS");
   ("Access-Control-Allow-Headers", "Content-Type, Authorization")].

(** A response rewriting that leaves the CORS headers as they are. *)
Definition keeps_cors (rewrite : Request -> Response -> Response) : Prop :=
  forall req r name value,
    In (name, value) cors_headers ->
    header_get name (headers r) = Some value ->
    header_get name (headers (rewrite req r)) = Some value.

(** The operations that put a record under the key [id]: a load whose
    array has, before any [null] entry, an entry with that id, and a Create
    that the handler lets through and that stores under that id. *)
Definition inserts (id : string) (o : operation) : Prop :=
  match o with
  | Load f =>
      exists items b, f = Parsed (JArr items) /\ In b (before_null items)
                      /\ field b "id" = Some (JStr id)
  | Serve req =>
      String.eqb (method req) "OPTIONS" = false
      /\ matched req = Some PostBooks
      /\ hasBody req = true
      /\ exists p, body_json req = Ok (JObj p) /\ accepted_payload p
                   /\ created_id req p = JStr id
  end.

(** Every record under a string key is an object. *)
Definition records_are_objects (m : Books.store) : Prop :=
  forall id v, In (Books.key id, v) m -> exists o, v = JObj o.

(** The error of the Update handler's call of [context.request.body]. *)
Definition body_is_no_function : error :=
  TypeError "context.request.body is not a function".

(** The response the program itself gives: none when an error leaves the
    stack, the reply is then the library's. *)
Definition reply (x : outcome) : option Response :=
  match fst x with
  | Ok _ => Some (response (snd x))
  | Throw _ => None
  end.

(** *** The stack around a route handler *)

Definition cors_response : Response :=
  {| status := None; body := None;
     headers := cors_headers; type := None |}.

(** The world a route handler starts in. *)
Definition entered (m : Books.store) : world :=
  {| books := m; response := cors_response; console := [] |}.

(** What the error handler makes of a typed error. *)
Definition rendered (req : Request) (s : nat) (message : string)
    (stack : option string) (r : Response) : Response :=
  if accepts_json req then
    {| status := Some s;
       body := Some (JObj ([("message", JStr message); ("status", JNum (Z.of_nat s))]
                           ++ match stack with
                              | Some t => [("stack", JStr t)]
                              | None => []
                              end));
       headers := headers r; type := Some "json" |}
  else
    {| status := Some s;
       body := Some (JStr (pretty s ++ " " ++ message ++ newline ++ newline
                           ++ default "" stack));
       headers := headers r; type := Some "text/plain" |}.

(** What the response-time middleware adds once the inner stack
    completed, and what the logger adds after it when the path decodes. *)
Definition timed (req : Request) (w : world) : world :=
  {| books := books w;
     response :=
       {| status := status (response w); body := body (response w);
          headers := header_set "X-Response-Time" (pretty (elapsed_ms req) ++ "ms")
                       (headers (response w));
          type := type (response w) |};
     console := console w |}.

Definition stamped (req : Request) (w : world) : world :=
  {| books := books w;
     response :=
       {| status := status (response w); body := body (response w);
          headers := header_set "X-Response-Time" (pretty (elapsed_ms req) ++ "ms")
                       (headers (response w));
          type := type (response w) |};
     console := console w
       ++ [LogText (method req ++ " " ++ pathname req ++ " - "
                    ++ pretty (elapsed_ms req) ++ "ms")] |}.

(** What becomes of the inner stack's completion in the logger. *)
Definition logged (req : Request) (w : world) : outcome :=
  match decodeURIComponent_pathname req with
  | Ok _ => (Ok tt, stamped req w)
  | Throw e => (Throw e, timed req w)
  end.

Definition with_response (f : Response -> Response) (w : world) : world :=
  {| books := books w; response := f (response w); console := console w |}.

Definition thrown_logged (e : error) (w : world) : world :=
  {| books := books w; response := response w;
     console := console w ++ [LogThrown e] |}.

(** The error with which the router fails on the path, if it does. *)
Definition refused_by_router (req : Request) : option error :=
  match resolved req with
  | Undecodable message true => Some (URIError message)
  | _ => None
  end.

(** What becomes of a request, other than OPTIONS, that reaches no route
    handler, given what the stack below the router leaves. *)
Definition unrouted (req : Request) (below above : world) : outcome :=
  match refused_by_router req with
  | Some e => (Throw e, thrown_logged e above)
  | None => logged req below
  end.

(** The stack seen from a route handler's result. *)
Definition wrap (req : Request) (x : outcome) : outcome :=
  match x with
  | (Ok _, w) => (Ok tt, stamped req w)
  | (Throw (HttpError s message stack), w) =>
      (Ok tt, stamped req (with_response (rendered req s message stack) w))
  | (Throw e, w) => (Throw e, thrown_logged e w)
  end.

End Spec.

(* ===================================================================== *)
(** ** Sample data                                                        *)
(* ===================================================================== *)

Module Sample.
Import Js Oak Main Spec.

(** A stand-in for the library's [allowedMethods]: a 404 left by the rest
    of the stack becomes a 405 with an [Allow] header. *)
Definition allow_get_post : Request -> Response -> Response := fun req r =>
  if Nat.eqb (final_status r) 404 then
    {| status := Some 405%nat; body := body r;
       headers := header_set "Allow" "GET, POST" (headers r);
       type := type r |}
  else r.

Definition dune : props :=
  [("id", JStr "1"); ("title", JStr "Dune"); ("author", JStr "Frank Herbert");
   ("genre", JStr "SF"); ("year", JNum 1965); ("summary", JStr "Arrakis")].

(** A payload whose fields all have their declared types, with year 0. *)
Definition year_zero : props :=
  [("title", JStr "Annals"); ("author", JStr "Anon"); ("genre", JStr "History");
   ("year", JNum 0); ("summary", JStr "The year zero")].

(** A payload without [id]. *)
Definition emma : props :=
  [("title", JStr "Emma"); ("author", JStr "Jane Austen");
   ("genre", JStr "Novel"); ("year", JNum 1815); ("summary", JStr "Highbury")].

(** A new edition of the record with id 1. *)
Definition dune_again : props :=
  [("id", JStr "1"); ("title", JStr "Dune, 2nd ed."); ("author", JStr "Frank Herbert");
   ("genre", JStr "SF"); ("year", JNum 1984); ("summary", JStr "Arrakis")].

Definition shelf : Books.store := [(Books.key "1", JObj dune)].

Definition request_for (verb path : string) (ep : option endpoint)
    (sent : option json) : Request :=
  {| method := verb;
     url := "http://127.0.0.1:8000" ++ path;
     resolved := match ep with
                 | Some e => Routed e path
                 | None => Unrouted path
                 end;
     hasBody := match sent with Some _ => true | None => false end;
     body_json := match sent with
                  | Some v => Ok v
                  | None => Throw (OtherError "no body")
                  end;
     accepts_json := true;
     uuid := "6fa459ea-ee8a-4ca4-894e-db77e160355e";
     thrown_stack := Some "BadRequestError: Bad Request";
     elapsed_ms := 2 |}.

Definition get_book (id : string) : Request :=
  request_for "GET" ("/books/" ++ id) (Some (GetBook id)) None.

Definition post_books (payload : option json) : Request :=
  request_for "POST" "/books" (Some PostBooks) payload.

Definition put_book (id : string) (payload : option json) : Request :=
  request_for "PUT" ("/books/" ++ id) (Some (PutBook id)) payload.

Definition delete_book (id : string) : Request :=
  request_for "DELETE" ("/books/" ++ id) (Some (DeleteBook id)) None.

(** The same request from a client that does not accept JSON. *)
Definition as_text_client (req : Request) : Request :=
  {| method := method req; url := url req; resolved := resolved req;
     hasBody := hasBody req; body_json := body_json req;
     accepts_json := false; uuid := uuid req;
     thrown_stack := thrown_stack req; elapsed_ms := elapsed_ms req |}.

(** The same request with a body that the library fails to decode. *)
Definition with_undecodable_body (e : error) (req : Request) : Request :=
  {| method := method req; url := url req; resolved := resolved req;
     hasBody := true; body_json := Throw e;
     accepts_json := accepts_json req; uuid := uuid req;
     thrown_stack := thrown_stack req; elapsed_ms := elapsed_ms req |}.

(** A request whose path has a malformed escape. *)
Definition malformed (verb : string) : Request :=
  {| method := verb;
     url := "http://127.0.0.1:8000/%ff";
     resolved := Undecodable "URI malformed" true;
     hasBody := false;
     body_json := Throw (OtherError "no body");
     accepts_json := true;
     uuid := "6fa459ea-ee8a-4ca4-894e-db77e160355e";
     thrown_stack := Some "BadRequestError: Bad Request";
     elapsed_ms := 2 |}.

(** The year-0 payload with the id of a stored record. *)
Definition year_zero_again : props := ("id", JStr "1") :: year_zero.

(** A payload whose id is a number. *)
Definition numbered : props :=
  [("id", JNum 7); ("title", JStr "Emma"); ("author", JStr "Jane Austen");
   ("genre", JStr "Novel"); ("year", JNum 1815); ("summary", JStr "Highbury")].

End Sample.

(* ===================================================================== *)
(** ** Facts about objects and about the map                              *)
(* ===================================================================== *)

Module JsFacts.
Import Js.

Lemma obj_get_set_eq name v o : obj_get name (obj_set name v o) = Some v.
Proof.
  induction o as [|[k w] rest IH]; simpl.
  - now rewrite String.eqb_refl.
  - destruct (String.eqb k name) eqn:E; simpl; rewrite E; auto.
Qed.

Lemma obj_get_set_ne name other v o :
  name <> other -> obj_get other (obj_set name v o) = obj_get other o.
Proof.
  intros Hne. induction o as [|[k w] rest IH]; simpl.
  - apply String.eqb_neq in Hne. now rewrite Hne.
  - destruct (String.eqb k name) eqn:E; simpl.
    + apply String.eqb_eq in E. subst k.
      apply String.eqb_neq in Hne. now rewrite Hne.
    + destruct (String.eqb k other); auto.
Qed.

Lemma obj_get_in_keys name o :
  obj_get name o <> None <-> name ∈ obj_keys o.
Proof.
  unfold obj_keys. induction o as [|[k w] rest IH]; simpl.
  - rewrite elem_of_nil. split; [congruence | tauto].
  - rewrite elem_of_cons. destruct (String.eqb k name) eqn:E.
    + apply String.eqb_eq in E. split; [auto | congruence].
    + apply String.eqb_neq in E. rewrite IH. split; [auto | intros [->|]; tauto].
Qed.

Lemma obj_get_copy_key src acc k name :
  obj_get name (copy_key src acc k) =
  if String.eqb k name
  then match obj_get name src with Some v => Some v | None => obj_get name acc end
  else obj_get name acc.
Proof.
  unfold copy_key. destruct (String.eqb k name) eqn:E.
  - apply String.eqb_eq in E. subst k.
    destruct (obj_get name src); auto using obj_get_set_eq.
  - apply String.eqb_neq in E.
    destruct (obj_get k src); auto using obj_get_set_ne.
Qed.

Lemma obj_get_copy_keys src name ks : forall acc,
  obj_get name (fold_left (copy_key src) ks acc) =
  match obj_get name src with
  | Some v => if bool_decide (name ∈ ks) then Some v else obj_get name acc
  | None => obj_get name acc
  end.
Proof.
  induction ks as [|k ks IH]; intros acc; simpl.
  - destruct (obj_get name src); auto.
  - rewrite IH, obj_get_copy_key.
    destruct (String.eqb k name) eqn:E.
    + apply String.eqb_eq in E. subst k.
      destruct (obj_get name src); auto.
      rewrite (bool_decide_eq_true_2 (name ∈ name :: ks)) by apply list_elem_of_here.
      now destruct (bool_decide (name ∈ ks)).
    + apply String.eqb_neq in E.
      destruct (obj_get name src); auto.
      destruct (bool_decide (name ∈ ks)) eqn:D.
      * apply bool_decide_eq_true_1 in D.
        rewrite bool_decide_eq_true_2; [auto | now apply list_elem_of_further].
      * apply bool_decide_eq_false_1 in D.
        rewrite bool_decide_eq_false_2; [auto |].
        rewrite elem_of_cons. intros [->|]; tauto.
Qed.

(** [{...target, ...src}] reads like [src] where [src] has the property
    and like [target] elsewhere. *)
Lemma obj_get_spread_into name target src :
  obj_get name (spread_into target src) =
  match obj_get name src with
  | Some v => Some v
  | None => obj_get name target
  end.
Proof.
  unfold spread_into. rewrite obj_get_copy_keys.
  destruct (obj_get name src) eqn:E; auto.
  rewrite bool_decide_eq_true_2; auto.
  apply obj_get_in_keys. congruence.
Qed.

Lemma obj_get_spread_into_nil name src :
  obj_get name (spread_into [] src) = obj_get name src.
Proof. rewrite obj_get_spread_into. now destruct (obj_get name src). Qed.

Lemma same_value_zero_eq a b : same_value_zero a b = true -> a = b.
Proof.
  destruct a as [[]|], b as [[]|]; simpl; try discriminate; auto.
  - intros H. apply Bool.eqb_prop in H. congruence.
  - intros H. apply Z.eqb_eq in H. congruence.
  - intros H. apply String.eqb_eq in H. congruence.
Qed.

Lemma same_value_zero_sym a b : same_value_zero a b = same_value_zero b a.
Proof.
  destruct a as [[]|], b as [[]|]; simpl; auto.
  - now destruct b0, b.
  - apply Z.eqb_sym.
  - apply String.eqb_sym.
Qed.

Lemma same_value_zero_refl a : primitive a = true -> same_value_zero a a = true.
Proof.
  destruct a as [[]|]; simpl; try discriminate; auto.
  - now destruct b.
  - intros _. apply Z.eqb_refl.
  - intros _. apply String.eqb_refl.
Qed.

Lemma truthy_str s : truthy (Some (JStr s)) = true <-> s <> "".
Proof.
  simpl. destruct (String.eqb s "") eqn:E; simpl.
  - apply String.eqb_eq in E. split; congruence.
  - apply String.eqb_neq in E. tauto.
Qed.

End JsFacts.

Module BooksFacts.
Import Js JsFacts Spec.

Lemma has_get k m :
  Books.has k m = match Books.get k m with Some _ => true | None => false end.
Proof.
  induction m as [|[k' v'] rest IH]; simpl; auto.
  now destruct (same_value_zero k' k).
Qed.

Lemma get_set_eq k v m :
  primitive k = true -> Books.get k (Books.set k v m) = Some v.
Proof.
  intros Hk. induction m as [|[k' v'] rest IH]; simpl.
  - now rewrite same_value_zero_refl.
  - destruct (same_value_zero k' k) eqn:E; simpl; now rewrite E.
Qed.

Lemma get_set_ne k other v m :
  same_value_zero k other = false ->
  Books.get other (Books.set k v m) = Books.get other m.
Proof.
  intros Hne. induction m as [|[k' v'] rest IH]; simpl.
  - now rewrite Hne.
  - destruct (same_value_zero k' k) eqn:E; simpl.
    + apply same_value_zero_eq in E. subst k'. now rewrite Hne.
    + now destruct (same_value_zero k' other).
Qed.

Lemma has_set k other v m :
  Books.has other (Books.set k v m)
  = Books.has other m || same_value_zero k other.
Proof.
  induction m as [|[k' v'] rest IH]; simpl.
  { now destruct (same_value_zero k other). }
  destruct (same_value_zero k' k) eqn:E; simpl.
  - apply same_value_zero_eq in E. subst k'.
    destruct (same_value_zero k other); simpl;
      [reflexivity | now rewrite orb_false_r].
  - now destruct (same_value_zero k' other).
Qed.


Lemma get_delete_ne k other m :
  same_value_zero k other = false ->
  Books.get other (Books.delete k m) = Books.get other m.
Proof.
  intros Hne. induction m as [|[k' v'] rest IH]; simpl; auto.
  destruct (same_value_zero k' k) eqn:E; simpl.
  - apply same_value_zero_eq in E. subst k'. now rewrite Hne.
  - now destruct (same_value_zero k' other).
Qed.

Lemma has_delete_ne k other m :
  same_value_zero k other = false ->
  Books.has other (Books.delete k m) = Books.has other m.
Proof. intros Hne. now rewrite !has_get, get_delete_ne. Qed.

Lemma has_delete_le k other m :
  Books.has other (Books.delete k m) = true -> Books.has other m = true.
Proof.
  induction m as [|[k' v'] rest IH]; simpl; auto.
  destruct (same_value_zero k' k); simpl;
    destruct (same_value_zero k' other); auto.
Qed.

Lemma size_set_has k v m :
  Books.has k m = true -> Books.size (Books.set k v m) = Books.size m.
Proof.
  unfold Books.size. induction m as [|[k' v'] rest IH]; simpl.
  - discriminate.
  - destruct (same_value_zero k' k); simpl; auto.
Qed.

Lemma size_set_new k v m :
  Books.has k m = false -> Books.size (Books.set k v m) = S (Books.size m).
Proof.
  unfold Books.size. induction m as [|[k' v'] rest IH]; simpl; auto.
  destruct (same_value_zero k' k); simpl; [discriminate | auto].
Qed.

Lemma in_set x k v m :
  In x (Books.set k v m) -> In x m \/ x = (k, v).
Proof.
  induction m as [|[k' v'] rest IH]; simpl.
  - intros [<-|[]]. auto.
  - destruct (same_value_zero k' k) eqn:E; simpl.
    + apply same_value_zero_eq in E. subst k'. intros [<-|H]; auto.
    + intros [<-|H]; auto. destruct (IH H); auto.
Qed.

Lemma in_delete x k m : In x (Books.delete k m) -> In x m.
Proof.
  induction m as [|[k' v'] rest IH]; simpl; auto.
  destruct (same_value_zero k' k); simpl; tauto.
Qed.

Lemma id_is_key_set k v m :
  id_is_key m -> field v "id" = k -> id_is_key (Books.set k v m).
Proof.
  intros Hm Hv k0 v0 Hin. apply in_set in Hin as [Hin|Heq].
  - now apply Hm.
  - now inversion Heq; subst.
Qed.

Lemma id_is_key_delete k m : id_is_key m -> id_is_key (Books.delete k m).
Proof. intros Hm k0 v0 Hin. apply Hm. eapply in_delete, Hin. Qed.

Lemma unique_keys_set k v m : unique_keys m -> unique_keys (Books.set k v m).
Proof.
  induction m as [|[k' v'] rest IH]; simpl.
  - auto.
  - intros [Hk Hrest]. destruct (same_value_zero k' k) eqn:E; simpl.
    + auto.
    + split; auto. rewrite has_set, Hk. simpl.
      now rewrite same_value_zero_sym.
Qed.

Lemma unique_keys_delete k m : unique_keys m -> unique_keys (Books.delete k m).
Proof.
  induction m as [|[k' v'] rest IH]; simpl; auto.
  intros [Hk Hrest]. destruct (same_value_zero k' k) eqn:E; simpl; auto.
  split; auto.
  destruct (Books.has k' (Books.delete k rest)) eqn:H; auto.
  apply has_delete_le in H. congruence.
Qed.

End BooksFacts.

(* ===================================================================== *)
(** ** The middleware stack                                               *)
(* ===================================================================== *)

Module StackFacts.
Import Js Oak Main Spec JsFacts.

Lemma header_get_set_eq name value h :
  header_get name (header_set name value h) = Some value.
Proof.
  induction h as [|[k v] rest IH]; simpl.
  - now rewrite String.eqb_refl.
  - destruct (String.eqb k name) eqn:E; simpl; now rewrite E.
Qed.

Lemma header_get_set_ne name other value h :
  name <> other ->
  header_get other (header_set name value h) = header_get other h.
Proof.
  intros Hne. induction h as [|[k v] rest IH]; simpl.
  - apply String.eqb_neq in Hne. now rewrite Hne.
  - destruct (String.eqb k name) eqn:E; simpl.
    + apply String.eqb_eq in E. subst k.
      apply String.eqb_neq in Hne. now rewrite Hne.
    + now destruct (String.eqb k other).
Qed.

Ltac unfold_monad :=
  unfold mbind, mret, M_bind, M_ret, bind, ret, throw, try_catch, when, lift.

Lemma cors_enters req next m :
  String.eqb (method req) "OPTIONS" = false ->
  cors req next (initial m) = next (entered m).
Proof. intros H. unfold cors. unfold_monad. simpl. now rewrite H. Qed.

Lemma cors_preflight req next m :
  String.eqb (method req) "OPTIONS" = true ->
  cors req next (initial m)
  = (Ok tt, with_response
              (fun r => {| status := Some 204%nat; body := body r;
                           headers := headers r; type := type r |})
              (entered m)).
Proof. intros H. unfold cors. unfold_monad. simpl. now rewrite H. Qed.

Lemma error_handler_run req next w :
  error_handler req next w =
  match next w with
  | (Ok a, w') => (Ok a, w')
  | (Throw (HttpError s message stack), w') =>
      (Ok tt, with_response (rendered req s message stack) w')
  | (Throw e, w') => (Throw e, thrown_logged e w')
  end.
Proof.
  unfold error_handler. unfold_monad.
  destruct (next w) as [[a|[s message stack|msg|msg|msg]] w']; try reflexivity.
  unfold with_response, rendered. now destruct (accepts_json req).
Qed.

(** The two outer middleware: the response time is set, and the logger
    writes its line unless the path does not decode. *)
Lemma outer_run req next w :
  logger req (response_time req next) w =
  match next w with
  | (Ok _, w') => logged req w'
  | (Throw e, w') => (Throw e, w')
  end.
Proof.
  unfold logger, response_time, logged. unfold_monad.
  destruct (next w) as [[a|e] w']; try reflexivity.
  unfold get_header, set_header, modify_response, console_log, stamped, timed,
    pathname.
  cbn [fst snd response headers books console].
  rewrite header_get_set_eq.
  now destruct (decodeURIComponent_pathname req).
Qed.

Lemma matched_decodes req ep :
  matched req = Some ep ->
  decodeURIComponent_pathname req = Ok (pathname req).
Proof.
  unfold pathname, decodeURIComponent_pathname, matched.
  now destruct (resolved req).
Qed.

Lemma logged_decodes req path w :
  decodeURIComponent_pathname req = Ok path ->
  logged req w = (Ok tt, stamped req w).
Proof. unfold logged. now intros ->. Qed.

(** Below [cors], a request other than OPTIONS reaches its route handler
    with the three CORS headers set and nothing else; around it, the error
    handler and the two outer middleware. *)
Lemma serve_matched allowedMethods m req ep :
  String.eqb (method req) "OPTIONS" = false ->
  matched req = Some ep ->
  serve allowedMethods m req = wrap req (dispatch ep req (entered m)).
Proof.
  intros Hmethod Hmatched. unfold serve, app. cbn [compose].
  rewrite outer_run, error_handler_run, cors_enters by assumption.
  assert (Hrouted : forall next, routes req next = dispatch ep req).
  { intros next. unfold routes. unfold matched in Hmatched.
    destruct (resolved req); now inversion Hmatched. }
  rewrite Hrouted.
  destruct (dispatch ep req (entered m)) as [[a|[s message stack|msg|msg|msg]] w'];
    cbn [wrap]; try reflexivity;
    now rewrite (logged_decodes req (pathname req)) by eauto using matched_decodes.
Qed.

(** What a typed error thrown by a handler comes to. *)
Lemma wrap_http_error req s message stack w :
  completed (wrap req (Throw (HttpError s message stack), w))
  /\ status_of (wrap req (Throw (HttpError s message stack), w)) = s
  /\ books_of (wrap req (Throw (HttpError s message stack), w)) = books w.
Proof.
  unfold completed, status_of, books_of, final_status, wrap, stamped,
    with_response, rendered.
  cbn [fst snd books response status].
  destruct (accepts_json req); cbn [status]; auto.
Qed.

End StackFacts.

(* ===================================================================== *)
(** ** Route handlers                                                     *)
(* ===================================================================== *)

Module HandlerFacts.
Import Js Oak Main Spec JsFacts BooksFacts StackFacts.

Lemma not_options req name :
  method req = name -> name <> "OPTIONS" ->
  String.eqb (method req) "OPTIONS" = false.
Proof. intros -> H. now apply String.eqb_neq. Qed.

(** Go from the stack to the handler of the matched route. *)
Ltac enter ep :=
  rewrite !(serve_matched _ _ _ ep)
    by first [ assumption
             | eapply not_options; [eassumption | discriminate]
             | reflexivity ];
  cbn [dispatch].

Lemma any_falsy_object p names :
  any_falsy (JObj p) names
  = Ok (negb (forallb (fun f => truthy (obj_get f p)) names)).
Proof.
  induction names as [|f rest IH]; simpl; auto.
  destruct (truthy (obj_get f p)); simpl; auto.
Qed.

Lemma accepted_forallb p :
  accepted_payload p <->
  forallb (fun f => truthy (obj_get f p)) required_fields = true.
Proof.
  unfold accepted_payload. rewrite forallb_forall. tauto.
Qed.

(** The handler on a payload it lets through. *)
Lemma handle_post_books_accepted req p w :
  hasBody req = true -> body_json req = Ok (JObj p) -> accepted_payload p ->
  handle_post_books req w =
  (Ok tt,
   {| books := Books.set (Some (created_id req p)) (JObj (created_book req p))
                 (books w);
      response := {| status := Some 201%nat;
                     body := Some (JObj (created_book req p));
                     headers := headers (response w);
                     type := type (response w) |};
      console := console w |}).
Proof.
  intros Hbody Hjson Hp. apply accepted_forallb in Hp.
  unfold handle_post_books. unfold_monad.
  rewrite Hbody, Hjson, any_falsy_object, Hp. reflexivity.
Qed.

(** The handler on a request it turns down. *)
Lemma handle_post_books_no_body req w :
  hasBody req = false ->
  handle_post_books req w
  = (Throw (HttpError 400 "Bad Request: No data provided" (thrown_stack req)), w).
Proof.
  intros Hbody. unfold handle_post_books. unfold_monad. now rewrite Hbody.
Qed.

Lemma handle_post_books_missing req p w :
  hasBody req = true -> body_json req = Ok (JObj p) ->
  forallb (fun f => truthy (obj_get f p)) required_fields = false ->
  handle_post_books req w
  = (Throw (HttpError 400 "Bad Request: Missing required fields"
              (thrown_stack req)), w).
Proof.
  intros Hbody Hjson Hp. unfold handle_post_books. unfold_monad.
  now rewrite Hbody, Hjson, any_falsy_object, Hp.
Qed.

Lemma any_falsy_value v names :
  v <> JNull ->
  any_falsy v names = Ok (negb (forallb (fun f => truthy (field v f)) names)).
Proof.
  intros Hv. induction names as [|f rest IH]; cbn [any_falsy forallb]; auto.
  assert (Hget : get_prop v f = Ok (field v f)) by (destruct v; auto; congruence).
  rewrite Hget. destruct (truthy (field v f)); cbn; auto.
Qed.

(** The handler on a body that is not [null] and lacks a required field. *)
Lemma handle_post_books_missing_value req v w :
  hasBody req = true -> body_json req = Ok v -> v <> JNull ->
  forallb (fun f => truthy (field v f)) required_fields = false ->
  handle_post_books req w
  = (Throw (HttpError 400 "Bad Request: Missing required fields"
              (thrown_stack req)), w).
Proof.
  intros Hbody Hjson Hv Hp. unfold handle_post_books. unfold_monad.
  now rewrite Hbody, Hjson, any_falsy_value, Hp.
Qed.

Lemma created_book_field req p f v :
  obj_get f p = Some v -> obj_get f (created_book req p) = Some v.
Proof.
  intros H. unfold created_book. now rewrite obj_get_spread_into, H.
Qed.

Lemma created_book_other req p f :
  f <> "id" -> obj_get f p = None -> obj_get f (created_book req p) = None.
Proof.
  intros Hf H. unfold created_book. rewrite obj_get_spread_into, H.
  cbn [obj_get]. destruct (String.eqb_spec "id" f); congruence.
Qed.

Lemma created_book_generated req p :
  obj_get "id" p = None ->
  obj_get "id" (created_book req p) = Some (JStr (uuid req)).
Proof.
  intros H. unfold created_book, created_id.
  now rewrite obj_get_spread_into, H.
Qed.

Lemma created_book_has_id req p : obj_get "id" (created_book req p) <> None.
Proof.
  unfold created_book. rewrite obj_get_spread_into.
  destruct (obj_get "id" p); simpl; congruence.
Qed.

(** *** Update *)

Lemma truthy_id id : id <> "" -> negb (truthy (Some (JStr id))) = false.
Proof. intros H. apply truthy_str in H. now rewrite H. Qed.

(** With an id, the handler gets no further than its call of
    [context.request.body]. *)
Lemma handle_put_book_throws id req w :
  id <> "" -> handle_put_book id req w = (Throw body_is_no_function, w).
Proof.
  intros Hid. unfold handle_put_book. now rewrite truthy_id by assumption.
Qed.

(** *** Get by id and Delete *)

Lemma handle_get_book_found id req b w :
  Books.get (Books.key id) (books w) = Some (JObj b) ->
  handle_get_book id req w =
  (Ok tt, with_response
            (fun r => {| status := status r; body := Some (JObj b);
                         headers := headers r; type := type r |}) w).
Proof.
  intros Hget. unfold handle_get_book. unfold_monad. unfold read_books.
  now rewrite Hget.
Qed.

Lemma handle_get_book_missing id req w :
  Books.has (Books.key id) (books w) = false ->
  handle_get_book id req w = notFound req w.
Proof.
  intros Hhas. unfold handle_get_book. unfold_monad. unfold read_books.
  rewrite has_get in Hhas.
  destruct (Books.get (Books.key id) (books w)); [discriminate | reflexivity].
Qed.

Lemma handle_delete_book_found id req w :
  id <> "" -> Books.has (Books.key id) (books w) = true ->
  handle_delete_book id req w =
  (Ok tt,
   {| books := Books.delete (Books.key id) (books w);
      response := {| status := Some 204%nat; body := body (response w);
                     headers := headers (response w);
                     type := type (response w) |};
      console := console w |}).
Proof.
  intros Hid Hhas. unfold handle_delete_book. unfold_monad. unfold read_books.
  apply truthy_str in Hid. now rewrite Hid, Hhas.
Qed.

Lemma handle_delete_book_missing id req w :
  Books.has (Books.key id) (books w) = false ->
  handle_delete_book id req w = notFound req w.
Proof.
  intros Hhas. unfold handle_delete_book. unfold_monad. unfold read_books.
  now rewrite Hhas, andb_false_r.
Qed.

End HandlerFacts.

(* ===================================================================== *)
(** ** What one operation does to the map                                 *)
(* ===================================================================== *)

Module StepFacts.
Import Js Oak Main Spec JsFacts BooksFacts StackFacts HandlerFacts.

Lemma books_wrap req x : books_of (wrap req x) = books (snd x).
Proof. now destruct x as [[[]|[]] w]. Qed.

Lemma books_logged req w : books_of (logged req w) = books w.
Proof. unfold logged. now destruct (decodeURIComponent_pathname req). Qed.

(** A request that matches no route gets the page of [notFound], as the
    library's [allowedMethods] then rewrites it; the logger comes last. *)
Lemma serve_unmatched allowedMethods m req :
  String.eqb (method req) "OPTIONS" = false -> matched req = None ->
  serve allowedMethods m req =
  unrouted req
    (with_response (allowedMethods req)
       (with_response
          (fun r => {| status := Some 404%nat; body := Some (not_found_page req);
                       headers := headers r; type := type r |})
          (entered m)))
    (entered m).
Proof.
  intros Hmethod Hmatched. unfold serve, app. cbn [compose].
  rewrite outer_run, error_handler_run, cors_enters by assumption.
  unfold routes, unrouted, refused_by_router. unfold matched in Hmatched.
  destruct (resolved req) as [ep path|path|message []]; try discriminate;
    reflexivity.
Qed.

Lemma books_unrouted req below above :
  books below = books above -> books_of (unrouted req below above) = books above.
Proof.
  intros Hsame. unfold unrouted.
  destruct (refused_by_router req); [reflexivity|].
  now rewrite books_logged.
Qed.

Lemma unrouted_decodes req path below above :
  decodeURIComponent_pathname req = Ok path ->
  unrouted req below above = (Ok tt, stamped req below).
Proof.
  intros Hpath. unfold unrouted, refused_by_router.
  unfold decodeURIComponent_pathname in Hpath.
  destruct (resolved req) as [ep p|p|message []] eqn:Hresolved;
    try discriminate;
    apply (logged_decodes req path);
    unfold decodeURIComponent_pathname; now rewrite Hresolved.
Qed.

(** An OPTIONS request stops at [cors]; the logger comes last. *)
Lemma serve_preflight allowedMethods m req :
  String.eqb (method req) "OPTIONS" = true ->
  serve allowedMethods m req =
  logged req
    (with_response
       (fun r => {| status := Some 204%nat; body := body r;
                    headers := headers r; type := type r |})
       (entered m)).
Proof.
  intros Hmethod. unfold serve, app. cbn [compose].
  now rewrite outer_run, error_handler_run, cors_preflight by assumption.
Qed.

(** The ways a request goes through the stack: to a route handler, or
    past all of them, and then the map is as it was. *)
Lemma serve_cases allowedMethods m req :
  (exists ep, String.eqb (method req) "OPTIONS" = false
              /\ matched req = Some ep
              /\ serve allowedMethods m req = wrap req (dispatch ep req (entered m)))
  \/ books_of (serve allowedMethods m req) = m.
Proof.
  destruct (String.eqb (method req) "OPTIONS") eqn:Hmethod.
  - right. now rewrite serve_preflight, books_logged.
  - destruct (matched req) as [ep|] eqn:Hmatched.
    + left. exists ep. repeat split; auto using serve_matched.
    + right. now rewrite serve_unmatched, books_unrouted.
Qed.

(** *** The effect of each handler on the map *)

Lemma handle_post_books_effect req w :
  books (snd (handle_post_books req w)) = books w
  \/ exists p, hasBody req = true /\ body_json req = Ok (JObj p)
               /\ accepted_payload p
               /\ books (snd (handle_post_books req w))
                  = Books.set (Some (created_id req p))
                      (JObj (created_book req p)) (books w).
Proof.
  destruct (hasBody req) eqn:Hbody.
  2: { left. now rewrite handle_post_books_no_body. }
  destruct (body_json req) as [[| | | | |p]|e] eqn:Hjson;
    try (left; unfold handle_post_books; unfold_monad;
         now rewrite Hbody, Hjson).
  destruct (forallb (fun f => truthy (obj_get f p)) required_fields) eqn:Hp.
  - apply accepted_forallb in Hp. right. exists p. repeat split; auto.
    now rewrite (handle_post_books_accepted req p).
  - left. now rewrite (handle_post_books_missing req p).
Qed.

Lemma handle_put_book_effect id req w :
  books (snd (handle_put_book id req w)) = books w.
Proof.
  destruct (String.eqb_spec id "") as [->|Hid]; [reflexivity|].
  now rewrite handle_put_book_throws.
Qed.

Lemma handle_delete_book_effect id req w :
  books (snd (handle_delete_book id req w)) = books w
  \/ books (snd (handle_delete_book id req w))
     = Books.delete (Books.key id) (books w).
Proof.
  unfold handle_delete_book. unfold_monad. unfold read_books.
  destruct (truthy (Some (JStr id)) && Books.has (Books.key id) (books w));
    [now right | now left].
Qed.

Lemma handle_get_book_effect id req w :
  books (snd (handle_get_book id req w)) = books w.
Proof.
  unfold handle_get_book. unfold_monad. unfold read_books.
  destruct (Books.get (Books.key id) (books w)) as [b|]; auto.
  now destruct (truthy (Some b)).
Qed.

(** *** The loader *)

Lemma forEach_set_run items : forall w,
  forEach_set items w =
  (if has_null items
   then Throw (TypeError "Cannot read properties of null (reading 'id')")
   else Ok tt,
   {| books := put_all (before_null items) (books w);
      response := response w; console := console w |}).
Proof.
  induction items as [|b rest IH]; intros w.
  - now destruct w.
  - destruct b; try (cbn [forEach_set]; unfold_monad; cbn; now rewrite IH).
    now destruct w.
Qed.

Lemma put_all_id_is_key items : forall m,
  id_is_key m -> id_is_key (put_all items m).
Proof.
  induction items as [|b rest IH]; intros m Hm; cbn; auto.
  apply IH. now apply id_is_key_set.
Qed.

Lemma put_all_unique_keys items : forall m,
  unique_keys m -> unique_keys (put_all items m).
Proof.
  induction items as [|b rest IH]; intros m Hm; cbn; auto.
  apply IH. now apply unique_keys_set.
Qed.

Lemma put_all_has k items : forall m,
  Books.has k (put_all items m) = true ->
  Books.has k m = true \/ exists b, In b items /\ field b "id" = k.
Proof.
  induction items as [|b rest IH]; intros m H; cbn in *; auto.
  apply IH in H as [H|(c & Hc & Hk)].
  - rewrite has_set in H. apply orb_true_iff in H as [H|H]; auto.
    right. exists b. split; auto. now apply same_value_zero_eq.
  - right. exists c. auto.
Qed.

Lemma loadBooksData_books f w :
  fst (loadBooksData f w) = Ok tt
  /\ books (snd (loadBooksData f w)) = loaded f (books w).
Proof.
  unfold loadBooksData. unfold_monad.
  destruct f as [e|e|[| | | |items|]]; cbn; auto.
  rewrite forEach_set_run. now destruct (has_null items).
Qed.

End StepFacts.

(* ===================================================================== *)
(** ** Invariants of the map                                              *)
(* ===================================================================== *)

Module Invariants.
Import Js Oak Main Spec JsFacts BooksFacts StackFacts HandlerFacts StepFacts.

Lemma get_in k v m : Books.get k m = Some v -> In (k, v) m.
Proof.
  induction m as [|[k' v'] rest IH]; cbn; [discriminate|].
  destruct (same_value_zero k' k) eqn:E; auto.
  apply same_value_zero_eq in E. intros [= ->]. now left; subst.
Qed.

(** *** Keys stay unique *)

Lemma step_unique_keys allowedMethods m o :
  unique_keys m -> unique_keys (step allowedMethods m o).
Proof.
  intros Hm. destruct o as [f|req]; cbn [step].
  - destruct (loadBooksData_books f (initial m)) as [_ ->]. cbn.
    destruct f as [e|e|[| | | |items|]]; cbn; auto using put_all_unique_keys.
  - destruct (serve_cases allowedMethods m req) as [(ep & _ & _ & ->)|Hsame].
    2: { unfold books_of in Hsame. now rewrite Hsame. }
    fold (books_of (wrap req (dispatch ep req (entered m)))).
    rewrite books_wrap. destruct ep as [|id| |id|id]; cbn [dispatch].
    + exact Hm.
    + now rewrite handle_get_book_effect.
    + destruct (handle_post_books_effect req (entered m))
        as [->|(p & _ & _ & _ & ->)];
        auto using unique_keys_set.
    + now rewrite handle_put_book_effect.
    + destruct (handle_delete_book_effect id req (entered m)) as [->| ->];
        auto using unique_keys_delete.
Qed.

(** *** Records under string keys are objects *)

Lemma put_all_records_are_objects items : forall m,
  records_are_objects m -> records_are_objects (put_all items m).
Proof.
  induction items as [|b rest IH]; intros m Hm; cbn; auto.
  apply IH. intros id v Hin. apply in_set in Hin as [Hin|[= Hk ->]]; eauto.
  destruct b; try discriminate. eauto.
Qed.

Lemma set_object_records_are_objects k o m :
  records_are_objects m -> records_are_objects (Books.set k (JObj o) m).
Proof.
  intros Hm id v Hin. apply in_set in Hin as [Hin|[= _ ->]]; eauto.
Qed.

Lemma step_records_are_objects allowedMethods m o :
  records_are_objects m -> records_are_objects (step allowedMethods m o).
Proof.
  intros Hm. destruct o as [f|req]; cbn [step].
  - destruct (loadBooksData_books f (initial m)) as [_ ->]. cbn.
    destruct f as [e|e|[| | | |items|]]; cbn;
      auto using put_all_records_are_objects.
  - destruct (serve_cases allowedMethods m req) as [(ep & _ & _ & ->)|Hsame].
    2: { unfold books_of in Hsame. now rewrite Hsame. }
    fold (books_of (wrap req (dispatch ep req (entered m)))).
    rewrite books_wrap. destruct ep as [|id| |id|id]; cbn [dispatch].
    + exact Hm.
    + now rewrite handle_get_book_effect.
    + destruct (handle_post_books_effect req (entered m))
        as [->|(p & _ & _ & _ & ->)];
        auto using set_object_records_are_objects.
    + now rewrite handle_put_book_effect.
    + destruct (handle_delete_book_effect id req (entered m)) as [->| ->]; auto.
      intros k v Hin. apply in_delete in Hin. eauto.
Qed.

Lemma run_records_are_objects allowedMethods ops : forall m,
  records_are_objects m -> records_are_objects (run allowedMethods ops m).
Proof.
  induction ops as [|o ops IH]; intros m Hm; cbn; auto.
  apply IH. now apply step_records_are_objects.
Qed.

(** *** Records sit under their own id *)

Lemma created_book_id req p :
  obj_get "id" p = None \/ truthy (obj_get "id" p) = true ->
  obj_get "id" (created_book req p) = Some (created_id req p).
Proof.
  unfold created_book, created_id, choose_id. rewrite obj_get_spread_into.
  intros [->| H]; auto.
  destruct (obj_get "id" p) as [v|]; auto. now rewrite H.
Qed.

Lemma step_id_is_key allowedMethods m o :
  keeps_id o -> id_is_key m -> id_is_key (step allowedMethods m o).
Proof.
  intros Ho Hm. destruct o as [f|req]; cbn [step].
  - destruct (loadBooksData_books f (initial m)) as [_ ->]. cbn.
    destruct f as [e|e|[| | | |items|]]; cbn; auto using put_all_id_is_key.
  - destruct (serve_cases allowedMethods m req) as [(ep & Hmethod & Hep & ->)|Hsame].
    2: { unfold books_of in Hsame. now rewrite Hsame. }
    fold (books_of (wrap req (dispatch ep req (entered m)))).
    rewrite books_wrap. cbn [keeps_id] in Ho. rewrite Hep in Ho.
    destruct ep as [|id| |id|id]; cbn [dispatch].
    + exact Hm.
    + now rewrite handle_get_book_effect.
    + destruct (handle_post_books_effect req (entered m))
        as [->|(p & _ & Hp & _ & ->)]; auto.
      apply id_is_key_set; auto. cbn [field].
      apply created_book_id. exact (Ho _ Hp).
    + now rewrite handle_put_book_effect.
    + destruct (handle_delete_book_effect id req (entered m)) as [->| ->];
        auto using id_is_key_delete.
Qed.

Lemma run_id_is_key allowedMethods ops : forall m,
  Forall keeps_id ops -> id_is_key m -> unique_keys m ->
  id_is_key (run allowedMethods ops m) /\ unique_keys (run allowedMethods ops m).
Proof.
  induction ops as [|o ops IH]; intros m Hops Hm Hu; cbn; auto.
  inversion Hops; subst.
  apply IH; auto using step_id_is_key, step_unique_keys.
Qed.

End Invariants.

(* ===================================================================== *)
(** ** Create                                                             *)
(* ===================================================================== *)

Module Create.
Import Js Oak Main Spec JsFacts BooksFacts StackFacts HandlerFacts.

(** C1, as stated, fails: a payload whose five required fields are present
    with their declared types is not always answered 201.  With [year]
    equal to 0 the handler's test [!newBook.year] holds: the answer is 400
    and nothing is stored. *)
Lemma create_year_zero_rejected :
  valid_payload Sample.year_zero = true
  /\ status_of (serve Sample.allow_get_post Books.empty
                  (Sample.post_books (Some (JObj Sample.year_zero)))) = 400%nat
  /\ books_of (serve Sample.allow_get_post Books.empty
                 (Sample.post_books (Some (JObj Sample.year_zero)))) = Books.empty.
Proof. repeat split. Qed.

(** C1, amended: a Create request whose payload has the five required
    fields truthy (non-empty strings, a non-zero year) is answered 201 with
    a Book that has every field of the payload with the payload's value and
    nothing else but [id]; its [id] is the payload's when the payload has
    one and the generated one otherwise. *)
Theorem create_accepted allowedMethods m req p :
  method req = "POST" -> matched req = Some PostBooks ->
  hasBody req = true -> body_json req = Ok (JObj p) ->
  accepted_payload p ->
  exists book,
    completed (serve allowedMethods m req)
    /\ status_of (serve allowedMethods m req) = 201%nat
    /\ body_of (serve allowedMethods m req) = Some (JObj book)
    /\ (forall f v, obj_get f p = Some v -> obj_get f book = Some v)
    /\ (forall f, f <> "id" -> obj_get f p = None -> obj_get f book = None)
    /\ (obj_get "id" p = None -> obj_get "id" book = Some (JStr (uuid req)))
    /\ obj_get "id" book <> None.
Proof.
  intros Hmethod Hmatched Hbody Hjson Hp.
  exists (created_book req p).
  enter PostBooks. rewrite (handle_post_books_accepted req p) by assumption.
  repeat split.
  - apply created_book_field.
  - apply created_book_other.
  - apply created_book_generated.
  - apply created_book_has_id.
Qed.

Lemma create_accepted_witness :
  exists book,
    body_of (serve Sample.allow_get_post Sample.shelf
               (Sample.post_books (Some (JObj Sample.emma))))
    = Some (JObj book)
    /\ obj_get "id" book
       = Some (JStr "6fa459ea-ee8a-4ca4-894e-db77e160355e").
Proof.
  destruct (create_accepted Sample.allow_get_post Sample.shelf
              (Sample.post_books (Some (JObj Sample.emma))) Sample.emma
              eq_refl eq_refl eq_refl eq_refl) as (book & _ & _ & Hb & _ & _ & Hid & _).
  - intros f Hf. simpl in Hf.
    repeat (destruct Hf as [<-|Hf]; [reflexivity|]). destruct Hf.
  - exists book. split; [exact Hb | apply Hid; reflexivity].
Defined.

(** C4, as stated, fails: a Create whose body is [null] lacks all five
    fields and is not answered 400.  Reading [newBook.title] throws a
    [TypeError], which is no typed HTTP error: the error handler throws it
    on and the program gives no response.  (The map is as it was.) *)
Lemma create_null_body_throws :
  fst (serve Sample.allow_get_post Sample.shelf
         (Sample.post_books (Some JNull)))
  = Throw (TypeError "Cannot read properties of null (reading 'title')")
  /\ reply (serve Sample.allow_get_post Sample.shelf
              (Sample.post_books (Some JNull))) = None
  /\ books_of (serve Sample.allow_get_post Sample.shelf
                 (Sample.post_books (Some JNull))) = Sample.shelf.
Proof. repeat split. Qed.

(** C4, amended: a Create request without a body, or whose body is a JSON
    value other than [null] (an object, an array, a string, a number, a
    boolean) in which one of [title], [author], [genre], [year], [summary]
    is absent or falsy, is answered 400 and leaves the map as it was. *)
Theorem create_refused allowedMethods m req :
  method req = "POST" -> matched req = Some PostBooks ->
  hasBody req = false
  \/ (exists v f, body_json req = Ok v /\ v <> JNull /\ In f required_fields
                  /\ truthy (field v f) = false) ->
  completed (serve allowedMethods m req)
  /\ status_of (serve allowedMethods m req) = 400%nat
  /\ books_of (serve allowedMethods m req) = m.
Proof.
  intros Hmethod Hmatched Hbad. enter PostBooks.
  destruct (hasBody req) eqn:Hbody.
  - destruct Hbad as [Hbad|(v & f & Hjson & Hv & Hf & Hfalsy)]; [discriminate|].
    rewrite (handle_post_books_missing_value req v); auto.
    + apply wrap_http_error.
    + destruct (forallb _ required_fields) eqn:Hall; auto.
      rewrite forallb_forall in Hall. rewrite (Hall f Hf) in Hfalsy.
      discriminate.
  - rewrite handle_post_books_no_body by assumption.
    apply wrap_http_error.
Qed.

Lemma create_refused_witness :
  status_of (serve Sample.allow_get_post Sample.shelf
               (Sample.post_books (Some (JObj [("title", JStr "Untitled")]))))
  = 400%nat
  /\ status_of (serve Sample.allow_get_post Sample.shelf
                  (Sample.post_books (Some (JArr [JStr "Untitled"]))))
     = 400%nat
  /\ books_of (serve Sample.allow_get_post Sample.shelf
                 (Sample.post_books (Some (JObj [("title", JStr "Untitled")]))))
     = Sample.shelf.
Proof.
  destruct (create_refused Sample.allow_get_post Sample.shelf
              (Sample.post_books (Some (JObj [("title", JStr "Untitled")])))
              eq_refl eq_refl) as (_ & Hs & Hm).
  { right. exists (JObj [("title", JStr "Untitled")]), "author".
    split; [reflexivity|]. split; [discriminate|].
    split; [simpl; tauto | reflexivity]. }
  destruct (create_refused Sample.allow_get_post Sample.shelf
              (Sample.post_books (Some (JArr [JStr "Untitled"])))
              eq_refl eq_refl) as (_ & Hs' & _).
  { right. exists (JArr [JStr "Untitled"]), "title".
    split; [reflexivity|]. split; [discriminate|].
    split; [simpl; tauto | reflexivity]. }
  repeat split; assumption.
Defined.

(** C10, as stated, fails: a payload whose fields have their declared
    types, with year 0 and the id of a stored record, is answered 400 and
    the stored record is not replaced. *)
Lemma create_year_zero_replaces_nothing :
  valid_payload Sample.year_zero_again = true
  /\ Books.has (Books.key "1") Sample.shelf = true
  /\ status_of (serve Sample.allow_get_post Sample.shelf
                  (Sample.post_books (Some (JObj Sample.year_zero_again))))
     = 400%nat
  /\ books_of (serve Sample.allow_get_post Sample.shelf
                 (Sample.post_books (Some (JObj Sample.year_zero_again))))
     = Sample.shelf.
Proof. repeat split. Qed.

(** An empty id counts as no id: a payload with the id [""], when a record
    is stored under the key [""], is answered 201 and stored as one more
    record, under the generated id. *)
Lemma create_empty_id_adds_a_record :
  valid_payload (("id", JStr "") :: Sample.emma) = true
  /\ status_of (serve Sample.allow_get_post
                  [(Books.key "", JObj (("id", JStr "") :: Sample.emma))]
                  (Sample.post_books (Some (JObj (("id", JStr "") :: Sample.emma)))))
     = 201%nat
  /\ Books.size (books_of (serve Sample.allow_get_post
                    [(Books.key "", JObj (("id", JStr "") :: Sample.emma))]
                    (Sample.post_books
                       (Some (JObj (("id", JStr "") :: Sample.emma))))))
     = 2%nat.
Proof. repeat split. Qed.

(** C10, amended: a Create request whose payload has the five required
    fields truthy and carries, as a non-empty string, the id of a stored
    record is answered 201; the record under that id is now the new one,
    the same number of records is stored and every other record is as it
    was. *)
Theorem create_replaces allowedMethods m req p id :
  method req = "POST" -> matched req = Some PostBooks ->
  hasBody req = true -> body_json req = Ok (JObj p) ->
  accepted_payload p ->
  obj_get "id" p = Some (JStr id) -> id <> "" ->
  Books.has (Books.key id) m = true ->
  completed (serve allowedMethods m req)
  /\ status_of (serve allowedMethods m req) = 201%nat
  /\ body_of (serve allowedMethods m req) = Some (JObj (created_book req p))
  /\ Books.get (Books.key id) (books_of (serve allowedMethods m req))
     = Some (JObj (created_book req p))
  /\ (forall f v, obj_get f p = Some v ->
                  obj_get f (created_book req p) = Some v)
  /\ Books.size (books_of (serve allowedMethods m req)) = Books.size m
  /\ (forall other, same_value_zero (Books.key id) other = false ->
        Books.get other (books_of (serve allowedMethods m req))
        = Books.get other m).
Proof.
  intros Hmethod Hmatched Hbody Hjson Hp Hid Hne Hhas. enter PostBooks.
  rewrite (handle_post_books_accepted req p) by assumption.
  assert (Hkey : Some (created_id req p) = Books.key id).
  { unfold created_id, choose_id. rewrite Hid.
    apply truthy_str in Hne. now rewrite Hne. }
  unfold completed, status_of, books_of, body_of. cbn. rewrite Hkey.
  repeat split.
  - now apply get_set_eq.
  - apply created_book_field.
  - now apply size_set_has.
  - intros other Hother. now apply get_set_ne.
Qed.

Lemma create_replaces_witness :
  status_of (serve Sample.allow_get_post Sample.shelf
               (Sample.post_books (Some (JObj Sample.dune_again)))) = 201%nat
  /\ Books.size (books_of (serve Sample.allow_get_post Sample.shelf
                    (Sample.post_books (Some (JObj Sample.dune_again))))) = 1%nat.
Proof.
  destruct (create_replaces Sample.allow_get_post Sample.shelf
              (Sample.post_books (Some (JObj Sample.dune_again)))
              Sample.dune_again "1" eq_refl eq_refl eq_refl eq_refl)
    as (_ & Hs & _ & _ & _ & Hsize & _).
  - intros f Hf. simpl in Hf.
    repeat (destruct Hf as [<-|Hf]; [reflexivity|]). destruct Hf.
  - reflexivity.
  - discriminate.
  - reflexivity.
  - split; [exact Hs | exact Hsize].
Defined.

End Create.

(* ===================================================================== *)
(** ** Update                                                             *)
(* ===================================================================== *)

Module Update.
Import Js Oak Main Spec JsFacts BooksFacts StackFacts HandlerFacts StepFacts.

(** C2, on the code: a PUT /books/:id request never gets one of the answers
    of the handler.  Whatever its body and whether or not a record exists
    at the id, the handler throws at its call of [context.request.body],
    which is no function; the error handler logs the error and throws it
    on, so the program gives no response of its own (no 200, 400 or 404),
    and the map is as it was. *)
Theorem update_throws allowedMethods m req id :
  method req = "PUT" -> matched req = Some (PutBook id) -> id <> "" ->
  fst (serve allowedMethods m req) = Throw body_is_no_function
  /\ reply (serve allowedMethods m req) = None
  /\ console_of (serve allowedMethods m req) = [LogThrown body_is_no_function]
  /\ books_of (serve allowedMethods m req) = m.
Proof.
  intros Hmethod Hmatched Hid. enter (PutBook id).
  rewrite handle_put_book_throws by assumption. repeat split.
Qed.

Lemma update_throws_witness :
  fst (serve Sample.allow_get_post Sample.shelf
         (Sample.put_book "1" (Some (JObj [("year", JNum 2020)]))))
  = Throw (TypeError "context.request.body is not a function")
  /\ fst (serve Sample.allow_get_post Sample.shelf (Sample.put_book "7" None))
     = Throw (TypeError "context.request.body is not a function").
Proof.
  destruct (update_throws Sample.allow_get_post Sample.shelf
              (Sample.put_book "1" (Some (JObj [("year", JNum 2020)]))) "1"
              eq_refl eq_refl ltac:(discriminate)) as (Hstored & _).
  destruct (update_throws Sample.allow_get_post Sample.shelf
              (Sample.put_book "7" None) "7"
              eq_refl eq_refl ltac:(discriminate)) as (Habsent & _).
  split; assumption.
Defined.

(** C5, on the code: Update merges nothing.  After a PUT on the id of a
    stored record, with whatever body, the map is as it was, and Get on the
    id returns the record as it was before. *)
Theorem update_merges_nothing allowedMethods m req id old :
  method req = "PUT" -> matched req = Some (PutBook id) ->
  Books.get (Books.key id) m = Some (JObj old) ->
  books_of (serve allowedMethods m req) = m
  /\ (forall req', method req' = "GET" -> matched req' = Some (GetBook id) ->
        status_of (serve allowedMethods
                     (books_of (serve allowedMethods m req)) req') = 200%nat
        /\ body_of (serve allowedMethods
                      (books_of (serve allowedMethods m req)) req')
           = Some (JObj old)).
Proof.
  intros Hmethod Hmatched Hold.
  assert (Hsame : books_of (serve allowedMethods m req) = m).
  { rewrite (serve_matched allowedMethods m req (PutBook id))
      by first [assumption | eapply not_options; [eassumption | discriminate]].
    rewrite books_wrap. cbn [dispatch]. apply handle_put_book_effect. }
  split; [exact Hsame|]. rewrite Hsame.
  intros req' Hmethod' Hmatched'. enter (GetBook id).
  now rewrite (handle_get_book_found id req' old) by exact Hold.
Qed.

Lemma update_merges_nothing_witness :
  body_of (serve Sample.allow_get_post
             (books_of (serve Sample.allow_get_post Sample.shelf
                          (Sample.put_book "1" (Some (JObj [("year", JNum 2020)])))))
             (Sample.get_book "1"))
  = Some (JObj [("id", JStr "1"); ("title", JStr "Dune");
                ("author", JStr "Frank Herbert"); ("genre", JStr "SF");
                ("year", JNum 1965); ("summary", JStr "Arrakis")]).
Proof.
  destruct (update_merges_nothing Sample.allow_get_post Sample.shelf
              (Sample.put_book "1" (Some (JObj [("year", JNum 2020)]))) "1"
              Sample.dune eq_refl eq_refl eq_refl) as (_ & Hget).
  now destruct (Hget (Sample.get_book "1") eq_refl eq_refl).
Defined.

End Update.

(* ===================================================================== *)
(** ** Delete                                                             *)
(* ===================================================================== *)

Module Delete.
Import Js Oak Main Spec JsFacts BooksFacts StackFacts HandlerFacts.



End Delete.

(* ===================================================================== *)
(** ** Identity of the records                                        *)
(* ===================================================================== *)

Module Identity.
Import Js Oak Main Spec JsFacts BooksFacts StackFacts HandlerFacts StepFacts
  Invariants.

(** A payload with an [id] property that is falsy is stored under the
    generated key, and the spread puts the payload's [id] back over the
    generated one. *)
Lemma create_falsy_id_kept :
  run Sample.allow_get_post
    [Serve (Sample.post_books (Some (JObj (("id", JStr "") :: Sample.emma))))]
    Books.empty
  = [(Books.key "6fa459ea-ee8a-4ca4-894e-db77e160355e",
      JObj (("id", JStr "") :: Sample.emma))].
Proof. reflexivity. Qed.

(** C3, on the code: a Create whose payload has an [id] property that is
    falsy (an empty string, 0, [null], [false]) stores the record under the
    generated id, and the record's [id] field is the payload's falsy one,
    not the key: the spread [{ id, ...newBook }] puts it back over the
    generated id. *)
Theorem create_falsy_id_breaks_identity allowedMethods m req p v :
  method req = "POST" -> matched req = Some PostBooks ->
  hasBody req = true -> body_json req = Ok (JObj p) ->
  accepted_payload p ->
  obj_get "id" p = Some v -> truthy (Some v) = false ->
  status_of (serve allowedMethods m req) = 201%nat
  /\ Books.get (Books.key (uuid req)) (books_of (serve allowedMethods m req))
     = Some (JObj (created_book req p))
  /\ field (JObj (created_book req p)) "id" = Some v.
Proof.
  intros Hmethod Hmatched Hbody Hjson Hp Hv Hfalsy. enter PostBooks.
  rewrite (handle_post_books_accepted req p) by assumption.
  unfold status_of, books_of. cbn [wrap snd stamped books entered].
  assert (Hkey : created_id req p = JStr (uuid req)).
  { unfold created_id, choose_id. now rewrite Hv, Hfalsy. }
  rewrite Hkey. repeat split.
  - now apply get_set_eq.
  - cbn [field]. now apply created_book_field.
Qed.

Lemma create_falsy_id_breaks_identity_witness :
  Books.get (Books.key "6fa459ea-ee8a-4ca4-894e-db77e160355e")
    (books_of (serve Sample.allow_get_post Books.empty
                 (Sample.post_books (Some (JObj (("id", JStr "") :: Sample.emma))))))
  = Some (JObj (("id", JStr "") :: Sample.emma)).
Proof.
  destruct (create_falsy_id_breaks_identity Sample.allow_get_post Books.empty
              (Sample.post_books (Some (JObj (("id", JStr "") :: Sample.emma))))
              (("id", JStr "") :: Sample.emma) (JStr "")
              eq_refl eq_refl eq_refl eq_refl) as (_ & Hget & _).
  - intros f Hf. simpl in Hf.
    repeat (destruct Hf as [<-|Hf]; [reflexivity|]). destruct Hf.
  - reflexivity.
  - reflexivity.
  - exact Hget.
Defined.

(** X18: along any sequence of loads and requests in which no Create
    payload has a falsy [id] property, every stored record's [id] field
    equals the key it is stored under, no two records have the same key,
    and the record found under a key later on has the [id] it had before. *)
Theorem ids_are_keys allowedMethods ops :
  Forall keeps_id ops ->
  id_is_key (run allowedMethods ops Books.empty)
  /\ unique_keys (run allowedMethods ops Books.empty)
  /\ (forall more k v v',
        Forall keeps_id more ->
        Books.get k (run allowedMethods ops Books.empty) = Some v ->
        Books.get k (run allowedMethods (ops ++ more) Books.empty) = Some v' ->
        field v' "id" = field v "id").
Proof.
  intros Hops.
  assert (Hempty : id_is_key Books.empty) by (intros k v []).
  destruct (run_id_is_key allowedMethods ops Books.empty Hops Hempty I)
    as [Hid Hunique].
  repeat split; auto.
  intros more k v v' Hmore Hv Hv'.
  assert (Hall : Forall keeps_id (ops ++ more)) by (apply Forall_app; auto).
  destruct (run_id_is_key allowedMethods (ops ++ more) Books.empty Hall Hempty I)
    as [Hid' _].
  apply get_in, Hid in Hv. apply get_in, Hid' in Hv'. congruence.
Qed.

Lemma ids_are_keys_witness :
  Books.get (Books.key "1")
    (run Sample.allow_get_post
       [Load (Parsed (JArr [JObj Sample.dune]));
        Serve (Sample.post_books (Some (JObj Sample.emma)));
        Serve (Sample.put_book "1" (Some (JObj [("year", JNum 2020)])))]
       Books.empty)
  = Some (JObj [("id", JStr "1"); ("title", JStr "Dune");
                ("author", JStr "Frank Herbert"); ("genre", JStr "SF");
                ("year", JNum 1965); ("summary", JStr "Arrakis")])
  /\ unique_keys
       (run Sample.allow_get_post
          [Load (Parsed (JArr [JObj Sample.dune]));
           Serve (Sample.post_books (Some (JObj Sample.emma)));
           Serve (Sample.put_book "1" (Some (JObj [("year", JNum 2020)])))]
          Books.empty).
Proof.
  split; [reflexivity|].
  apply (ids_are_keys Sample.allow_get_post
           [Load (Parsed (JArr [JObj Sample.dune]));
            Serve (Sample.post_books (Some (JObj Sample.emma)));
            Serve (Sample.put_book "1" (Some (JObj [("year", JNum 2020)])))]).
  constructor; [exact I|].
  constructor; [intros v [= <-]; now left|].
  constructor; [exact I|].
  constructor.
Defined.

End Identity.

(* ===================================================================== *)
(** ** Get by id                                                          *)
(* ===================================================================== *)

Module GetById.
Import Js Oak Main Spec JsFacts BooksFacts StackFacts HandlerFacts StepFacts
  Invariants.

(** A key is in the map only if some operation put it there. *)
Lemma step_has allowedMethods id m o :
  Books.has (Books.key id) (step allowedMethods m o) = true ->
  Books.has (Books.key id) m = true \/ inserts id o.
Proof.
  destruct o as [f|req]; cbn [step].
  - destruct (loadBooksData_books f (initial m)) as [_ ->]. cbn [books initial].
    destruct f as [e|e|[| | | |items|]]; cbn [loaded]; auto.
    intros H. apply put_all_has in H as [H|(b & Hb & Hk)]; auto.
    right. exists items, b. auto.
  - destruct (serve_cases allowedMethods m req) as [(ep & Hmethod & Hep & ->)|Hsame].
    2: { unfold books_of in Hsame. rewrite Hsame. auto. }
    fold (books_of (wrap req (dispatch ep req (entered m)))).
    rewrite books_wrap. destruct ep as [|id'| |id'|id']; cbn [dispatch].
    + auto.
    + rewrite handle_get_book_effect. auto.
    + destruct (handle_post_books_effect req (entered m))
        as [->|(p & Hbody & Hp & Hacc & ->)]; auto.
      rewrite has_set. intros H. apply orb_true_iff in H as [H|H]; auto.
      right. apply same_value_zero_eq in H. injection H as H.
      repeat split; auto. exists p. auto.
    + rewrite handle_put_book_effect. auto.
    + destruct (handle_delete_book_effect id' req (entered m)) as [->| ->]; auto.
      intros H. left. eapply has_delete_le, H.
Qed.

Lemma run_has allowedMethods id ops : forall m,
  Books.has (Books.key id) (run allowedMethods ops m) = true ->
  Books.has (Books.key id) m = true \/ exists o, In o ops /\ inserts id o.
Proof.
  induction ops as [|o ops IH]; intros m H; cbn in *; auto.
  apply IH in H as [H|(o' & Ho' & Hins)].
  - apply step_has in H as [H|H]; eauto.
  - eauto.
Qed.

(** C7, as stated, fails on the body of the 404: Get on an absent id
    answers with the page of [notFound], a string of HTML, not with a
    structured body. *)
Lemma get_absent_body_is_page :
  status_of (serve Sample.allow_get_post Books.empty (Sample.get_book "1"))
  = 404%nat
  /\ structured
       (body_of (serve Sample.allow_get_post Books.empty (Sample.get_book "1")))
     = false
  /\ body_of (serve Sample.allow_get_post Books.empty (Sample.get_book "1"))
     = Some (JStr ("<html><body><h1>404 - Not Found</h1><p>Path <code>"
                   ++ "http://127.0.0.1:8000/books/1"
                   ++ "</code> not found.")).
Proof. repeat split. Qed.

(** C7, amended: Get by id is answered 200 with the stored Book when the
    id is present in the map, and 404 with the HTML page of [notFound],
    which names the request URL, when it is absent; an id that no
    operation ever inserted is absent. *)
Theorem get_by_id allowedMethods m req id :
  method req = "GET" -> matched req = Some (GetBook id) ->
  (forall b, Books.get (Books.key id) m = Some (JObj b) ->
     completed (serve allowedMethods m req)
     /\ status_of (serve allowedMethods m req) = 200%nat
     /\ body_of (serve allowedMethods m req) = Some (JObj b))
  /\ (forall ops, m = run allowedMethods ops Books.empty ->
        Books.has (Books.key id) m = true ->
        status_of (serve allowedMethods m req) = 200%nat
        /\ body_of (serve allowedMethods m req) = Books.get (Books.key id) m)
  /\ (Books.has (Books.key id) m = false ->
        completed (serve allowedMethods m req)
        /\ status_of (serve allowedMethods m req) = 404%nat
        /\ body_of (serve allowedMethods m req) = Some (not_found_page req)
        /\ books_of (serve allowedMethods m req) = m)
  /\ (forall ops, m = run allowedMethods ops Books.empty ->
        (forall o, In o ops -> ~ inserts id o) ->
        status_of (serve allowedMethods m req) = 404%nat).
Proof.
  intros Hmethod Hmatched. enter (GetBook id).
  assert (Hfound : forall b, Books.get (Books.key id) m = Some (JObj b) ->
            handle_get_book id req (entered m)
            = (Ok tt, with_response
                        (fun r => {| status := status r; body := Some (JObj b);
                                     headers := headers r; type := type r |})
                        (entered m))).
  { intros b Hb. now apply handle_get_book_found. }
  assert (Hmissing : Books.has (Books.key id) m = false ->
            handle_get_book id req (entered m) = notFound req (entered m)).
  { intros Hhas. now apply handle_get_book_missing. }
  split; [|split; [|split]].
  - intros b Hb. now rewrite (Hfound b Hb).
  - intros ops -> Hhas. rewrite has_get in Hhas.
    destruct (Books.get (Books.key id) (run allowedMethods ops Books.empty))
      as [v|] eqn:Hv; [|discriminate].
    assert (Hobj : exists o, v = JObj o).
    { apply get_in in Hv.
      eapply (run_records_are_objects allowedMethods ops Books.empty); eauto.
      intros k w []. }
    destruct Hobj as [o ->]. now rewrite (Hfound o eq_refl).
  - intros Hhas. now rewrite (Hmissing Hhas).
  - intros ops -> Hnever.
    destruct (Books.has (Books.key id) (run allowedMethods ops Books.empty))
      eqn:Hhas.
    + apply run_has in Hhas as [Hhas|(o & Ho & Hins)]; [discriminate|].
      now destruct (Hnever o Ho).
    + now rewrite (Hmissing eq_refl).
Qed.

Lemma get_by_id_witness :
  status_of (serve Sample.allow_get_post Sample.shelf (Sample.get_book "1"))
  = 200%nat
  /\ body_of (serve Sample.allow_get_post Sample.shelf (Sample.get_book "1"))
     = Some (JObj Sample.dune)
  /\ status_of (serve Sample.allow_get_post Sample.shelf (Sample.get_book "2"))
     = 404%nat.
Proof.
  destruct (get_by_id Sample.allow_get_post Sample.shelf (Sample.get_book "1")
              "1" eq_refl eq_refl) as (Hfound & _).
  destruct (get_by_id Sample.allow_get_post Sample.shelf (Sample.get_book "2")
              "2" eq_refl eq_refl) as (_ & _ & Habsent & _).
  destruct (Hfound Sample.dune eq_refl) as (_ & Hs & Hb).
  destruct (Habsent eq_refl) as (_ & Hs' & _).
  repeat split; assumption.
Defined.

End GetById.

(* ===================================================================== *)
(** ** Loader and start-up                                                *)
(* ===================================================================== *)

Module Loader.
Import Js Oak Main Spec JsFacts BooksFacts StackFacts HandlerFacts StepFacts
  Invariants.

Lemma loadBooksData_run f w :
  loadBooksData f w =
  (Ok tt, {| books := loaded f (books w); response := response w;
             console := console w ++ load_log f |}).
Proof.
  unfold loadBooksData, load_log. unfold_monad.
  destruct f as [e|e|[| | | |items|]]; try reflexivity.
  cbn [readTextFile_parse loaded load_error]. rewrite forEach_set_run.
  destruct (has_null items); cbn; [reflexivity|].
  now rewrite app_nil_r.
Qed.

Lemma startup_run f serverType :
  startup f serverType =
  (Ok tt, {| books := loaded f Books.empty; response := fresh_response;
             console := load_log f ++ listen_log serverType |}).
Proof.
  unfold startup. unfold_monad. rewrite loadBooksData_run.
  unfold listen. unfold_monad. unfold console_log. cbn.
  now rewrite <- app_assoc.
Qed.

Lemma before_null_all items : has_null items = false -> before_null items = items.
Proof.
  induction items as [|b rest IH]; cbn; auto.
  destruct b; cbn; try discriminate; intros H; now rewrite IH.
Qed.

Lemma put_all_app before after m :
  put_all (before ++ after) m = put_all after (put_all before m).
Proof. apply fold_left_app. Qed.

Lemma put_all_get_ne k items : forall m,
  (forall c, In c items -> same_value_zero (field c "id") k = false) ->
  Books.get k (put_all items m) = Books.get k m.
Proof.
  induction items as [|b rest IH]; intros m H; cbn; auto.
  rewrite IH by (intros c Hc; apply H; now right).
  apply get_set_ne, H. now left.
Qed.

(** The entry found under an id is the last entry of the array with it. *)
Lemma put_all_get_last before b after m :
  primitive (field b "id") = true ->
  (forall c, In c after ->
     same_value_zero (field c "id") (field b "id") = false) ->
  Books.get (field b "id") (put_all (before ++ b :: after) m) = Some b.
Proof.
  intros Hk Hafter. rewrite put_all_app. cbn.
  fold (put_all after (Books.set (field b "id") b (put_all before m))).
  rewrite put_all_get_ne by assumption. now apply get_set_eq.
Qed.

(** C8: whatever reading and parsing the file came to, start-up completes
    and the server listens.  When the read or the parse fails the error is
    logged and the map is empty; when the parsed value is an array the map
    holds the puts of its entries up to the first one that cannot be read
    (a [null]), a parsed value that is no array leaves it empty, and with no
    [null] entry nothing is logged, every entry has
    been put under its own id and is found there unless a later entry has
    the same id. *)
Theorem load_failure_is_not_fatal f serverType :
  completed (startup f serverType)
  /\ console (snd (startup f serverType)) = load_log f ++ listen_log serverType
  /\ (forall e, f = Unreadable e \/ f = Malformed e ->
        books_of (startup f serverType) = Books.empty
        /\ load_log f = [LogError "Error reading books.json:" e])
  /\ (forall v, f = Parsed v -> (forall items, v <> JArr items) ->
        books_of (startup f serverType) = Books.empty
        /\ exists e, load_log f = [LogError "Error reading books.json:" e])
  /\ (forall items, f = Parsed (JArr items) ->
        books_of (startup f serverType)
        = put_all (before_null items) Books.empty)
  /\ (forall items, f = Parsed (JArr items) -> has_null items = false ->
        load_log f = []
        /\ books_of (startup f serverType) = put_all items Books.empty
        /\ (forall before b after,
              items = before ++ b :: after ->
              primitive (field b "id") = true ->
              (forall c, In c after ->
                 same_value_zero (field c "id") (field b "id") = false) ->
              Books.get (field b "id") (books_of (startup f serverType))
              = Some b)).
Proof.
  rewrite startup_run. unfold completed, books_of. cbn [fst snd books console].
  split; [reflexivity|]. split; [reflexivity|]. split; [|split; [|split]].
  - intros e [-> | ->]; now split.
  - intros v -> Hv. unfold load_log.
    destruct v; cbn; eauto. now destruct (Hv items).
  - now intros items ->.
  - intros items -> Hnull. unfold load_log. cbn [load_error loaded].
    rewrite Hnull, before_null_all by assumption.
    split; [reflexivity|]. split; [reflexivity|].
    intros before b after -> Hk Hafter. now apply put_all_get_last.
Qed.

(** The scenario of the specification: one entry in the file. *)
Lemma load_one_book :
  startup (Parsed (JArr [JObj Sample.dune])) "native"
  = (Ok tt, {| books := [(Books.key "1", JObj Sample.dune)];
               response := fresh_response;
               console := listen_log "native" |}).
Proof. reflexivity. Qed.

(** After that load, the list route answers 200 with the one record. *)
Lemma load_one_book_then_list :
  status_of (serve Sample.allow_get_post
               (books_of (startup (Parsed (JArr [JObj Sample.dune])) "native"))
               (Sample.request_for "GET" "/books" (Some GetBooks) None))
  = 200%nat
  /\ body_of (serve Sample.allow_get_post
                (books_of (startup (Parsed (JArr [JObj Sample.dune])) "native"))
                (Sample.request_for "GET" "/books" (Some GetBooks) None))
     = Some (JArr [JObj Sample.dune]).
Proof. split; reflexivity. Qed.

(** A [null] entry stops the loader; the entries before it stay. *)
Lemma load_stops_at_null :
  books_of (startup (Parsed (JArr [JObj Sample.dune; JNull; JObj Sample.emma]))
              "native")
  = [(Books.key "1", JObj Sample.dune)]
  /\ completed (startup (Parsed (JArr [JObj Sample.dune; JNull; JObj Sample.emma]))
                  "native").
Proof. split; reflexivity. Qed.

End Loader.

(* ===================================================================== *)
(** ** CORS headers                                                       *)
(* ===================================================================== *)

Module Cors.
Import Js Oak Main Spec JsFacts BooksFacts StackFacts HandlerFacts StepFacts.

(** No route handler touches the headers. *)
Lemma dispatch_headers ep req w :
  headers (response (snd (dispatch ep req w))) = headers (response w).
Proof.
  destruct ep as [|id| |id|id]; cbn [dispatch].
  - reflexivity.
  - unfold handle_get_book. unfold_monad. unfold read_books.
    destruct (Books.get (Books.key id) (books w)) as [b|]; [|reflexivity].
    now destruct (truthy (Some b)).
  - unfold handle_post_books. unfold_monad.
    destruct (hasBody req); [|reflexivity]. cbn [negb].
    destruct (body_json req) as [newBook|e]; [|reflexivity].
    destruct (any_falsy newBook required_fields) as [[]|e]; try reflexivity.
    now destruct (get_prop newBook "id").
  - unfold handle_put_book. unfold_monad. unfold read_books.
    now destruct (negb (truthy (Some (JStr id)))).
  - unfold handle_delete_book. unfold_monad. unfold read_books.
    now destruct (truthy (Some (JStr id)) && Books.has (Books.key id) (books w)).
Qed.

Lemma cors_header_name name value :
  In (name, value) cors_headers ->
  name <> "X-Response-Time"
  /\ header_get name (headers cors_response) = Some value.
Proof.
  cbn. intros [[= <- <-]|[[= <- <-]|[[= <- <-]|[]]]]; split;
    (discriminate || reflexivity).
Qed.

Lemma header_get_stamped name req w :
  name <> "X-Response-Time" ->
  header_get name (headers (response (stamped req w)))
  = header_get name (headers (response w)).
Proof. intros Hname. cbn. apply header_get_set_ne. congruence. Qed.

(** The stack above the handlers keeps a header that is not the response
    time. *)
Lemma header_of_wrap name req x :
  name <> "X-Response-Time" ->
  header_of name (wrap req x) = header_get name (headers (response (snd x))).
Proof.
  intros Hname. unfold header_of.
  destruct x as [[[]|[s message stack|msg|msg|msg]] w]; cbn; try reflexivity.
  - apply header_get_set_ne. congruence.
  - rewrite header_get_set_ne by congruence. unfold rendered.
    now destruct (accepts_json req).
Qed.

Lemma header_of_logged name req w :
  name <> "X-Response-Time" ->
  header_of name (logged req w) = header_get name (headers (response w)).
Proof.
  intros Hname. unfold header_of, logged.
  destruct (decodeURIComponent_pathname req); cbn;
    apply header_get_set_ne; congruence.
Qed.

(** C9, as stated, fails: not every request gets a response from the
    program.  A Create whose body is [null] makes the handler throw an
    error that is not a typed one; the error handler throws it on and the
    stack ends without a response of its own, so the reply is the
    library's generic failure and not a response carrying what [cors]
    set. *)
Lemma null_body_gets_no_response :
  reply (serve Sample.allow_get_post Sample.shelf
           (Sample.post_books (Some JNull))) = None.
Proof. reflexivity. Qed.

(** C9, amended: every response that the middleware stack completes (the
    answer of a route handler, a typed error rendered by the error handler,
    the 404 fallback, the 204 of an OPTIONS request) carries the three CORS
    headers with the values [cors] gives them: the one origin
    [http://localhost:3000], the methods GET, POST, PUT, DELETE, OPTIONS
    and the headers Content-Type, Authorization; provided the library's
    [allowedMethods] leaves them alone. *)
Theorem cors_headers_on_completed_responses allowedMethods m req :
  keeps_cors allowedMethods ->
  completed (serve allowedMethods m req) ->
  header_of "Access-Control-Allow-Origin" (serve allowedMethods m req)
  = Some "http://localhost:3000"
  /\ header_of "Access-Control-Allow-Methods" (serve allowedMethods m req)
     = Some "GET, POST, PUT, DELETE, OPTIONS"
  /\ header_of "Access-Control-Allow-Headers" (serve allowedMethods m req)
     = Some "Content-Type, Authorization".
Proof.
  intros Hkeeps _.
  assert (H : forall name value, In (name, value) cors_headers ->
            header_of name (serve allowedMethods m req) = Some value).
  { intros name value Hin.
    destruct (cors_header_name name value Hin) as [Hname Hset].
    destruct (String.eqb (method req) "OPTIONS") eqn:Hmethod.
    - rewrite serve_preflight, header_of_logged by assumption. exact Hset.
    - destruct (matched req) as [ep|] eqn:Hmatched.
      + rewrite (serve_matched _ _ _ ep), header_of_wrap by assumption.
        now rewrite dispatch_headers.
      + rewrite serve_unmatched by assumption. unfold unrouted.
        destruct (refused_by_router req); [exact Hset|].
        rewrite header_of_logged by assumption. now apply Hkeeps. }
  repeat split; apply H; cbn; tauto.
Qed.

Lemma allow_get_post_keeps_cors : keeps_cors Sample.allow_get_post.
Proof.
  intros req r name value Hin Hget. unfold Sample.allow_get_post.
  destruct (Nat.eqb (final_status r) 404); [|exact Hget]. cbn [headers].
  rewrite header_get_set_ne; [exact Hget|].
  cbn in Hin. destruct Hin as [[= <- <-]|[[= <- <-]|[[= <- <-]|[]]]]; discriminate.
Qed.

Lemma cors_headers_on_completed_responses_witness :
  status_of (serve Sample.allow_get_post Sample.shelf
               (Sample.request_for "PATCH" "/books" None None)) = 405%nat
  /\ header_of "Access-Control-Allow-Origin"
       (serve Sample.allow_get_post Sample.shelf
          (Sample.request_for "PATCH" "/books" None None))
     = Some "http://localhost:3000".
Proof.
  split; [reflexivity|].
  apply (cors_headers_on_completed_responses Sample.allow_get_post Sample.shelf
           (Sample.request_for "PATCH" "/books" None None)
           allow_get_post_keeps_cors eq_refl).
Defined.

End Cors.

(* ===================================================================== *)
(** ** The order and the number of the records                            *)
(* ===================================================================== *)

Module OrderFacts.
Import Js Oak Main Spec JsFacts BooksFacts StackFacts HandlerFacts StepFacts.

Lemma keys_set_has k v m :
  Books.has k m = true -> keys (Books.set k v m) = keys m.
Proof.
  unfold keys. induction m as [|[k' v'] rest IH]; cbn; [discriminate|].
  destruct (same_value_zero k' k); cbn; auto.
  intros H. now rewrite IH.
Qed.

Lemma set_new k v m :
  Books.has k m = false -> Books.set k v m = m ++ [(k, v)].
Proof.
  induction m as [|[k' v'] rest IH]; cbn; auto.
  destruct (same_value_zero k' k); [discriminate|].
  intros H. now rewrite IH.
Qed.

Lemma delete_absent k m : Books.has k m = false -> Books.delete k m = m.
Proof.
  induction m as [|[k' v'] rest IH]; cbn; auto.
  destruct (same_value_zero k' k); [discriminate|].
  intros H. now rewrite IH.
Qed.

Lemma size_delete k m :
  unique_keys m -> Books.has k m = true ->
  S (Books.size (Books.delete k m)) = Books.size m.
Proof.
  unfold Books.size. induction m as [|[k' v'] rest IH]; cbn; [discriminate|].
  intros [Hk Hrest]. destruct (same_value_zero k' k) eqn:E.
  - intros _. apply same_value_zero_eq in E. subst k'.
    now rewrite delete_absent.
  - intros H. cbn. now rewrite IH.
Qed.

Lemma values_length m : length (Books.values m) = Books.size m.
Proof. apply length_map. Qed.

(** No route handler writes to the console. *)
Lemma dispatch_console ep req w :
  console (snd (dispatch ep req w)) = console w.
Proof.
  destruct ep as [|id| |id|id]; cbn [dispatch].
  - reflexivity.
  - unfold handle_get_book. unfold_monad. unfold read_books.
    destruct (Books.get (Books.key id) (books w)) as [b|]; [|reflexivity].
    now destruct (truthy (Some b)).
  - unfold handle_post_books. unfold_monad.
    destruct (hasBody req); [|reflexivity]. cbn [negb].
    destruct (body_json req) as [newBook|e]; [|reflexivity].
    destruct (any_falsy newBook required_fields) as [[]|e]; try reflexivity.
    now destruct (get_prop newBook "id").
  - unfold handle_put_book. unfold_monad. unfold read_books.
    now destruct (negb (truthy (Some (JStr id)))).
  - unfold handle_delete_book. unfold_monad. unfold read_books.
    now destruct (truthy (Some (JStr id)) && Books.has (Books.key id) (books w)).
Qed.

End OrderFacts.

(* ===================================================================== *)
(** ** List, preflight and fallback                                       *)
(* ===================================================================== *)

Module Reading.
Import Js Oak Main Spec JsFacts BooksFacts StackFacts HandlerFacts StepFacts
  OrderFacts.

(** X1: GET /books is answered 200 with the array of all stored records in
    insertion order, as many as the map holds (an empty array, still 200,
    for an empty map), and leaves the map as it was. *)
Theorem list_all_books allowedMethods m req :
  method req = "GET" -> matched req = Some GetBooks ->
  completed (serve allowedMethods m req)
  /\ status_of (serve allowedMethods m req) = 200%nat
  /\ body_of (serve allowedMethods m req) = Some (JArr (Books.values m))
  /\ length (Books.values m) = Books.size m
  /\ books_of (serve allowedMethods m req) = m.
Proof.
  intros Hmethod Hmatched. enter GetBooks.
  repeat split. apply values_length.
Qed.

Lemma list_all_books_witness :
  status_of (serve Sample.allow_get_post Books.empty
               (Sample.request_for "GET" "/books" (Some GetBooks) None))
  = 200%nat
  /\ body_of (serve Sample.allow_get_post Books.empty
                (Sample.request_for "GET" "/books" (Some GetBooks) None))
     = Some (JArr []).
Proof.
  destruct (list_all_books Sample.allow_get_post Books.empty
              (Sample.request_for "GET" "/books" (Some GetBooks) None)
              eq_refl eq_refl) as (_ & Hs & Hb & _).
  split; assumption.
Defined.

(** X2: an OPTIONS request stops at the CORS middleware whatever route it
    matches and whatever it carries: no handler runs and the map is as it
    was.  When its path decodes it is answered 204 without a body; when its
    path has a malformed escape the logger, which decodes the path outside
    the error handler, throws [URIError] and the program gives no
    response. *)
Theorem options_stops_at_cors allowedMethods m req :
  method req = "OPTIONS" ->
  books_of (serve allowedMethods m req) = m
  /\ (forall path, decodeURIComponent_pathname req = Ok path ->
        completed (serve allowedMethods m req)
        /\ status_of (serve allowedMethods m req) = 204%nat
        /\ body_of (serve allowedMethods m req) = None)
  /\ (forall message refused, resolved req = Undecodable message refused ->
        fst (serve allowedMethods m req) = Throw (URIError message)
        /\ reply (serve allowedMethods m req) = None).
Proof.
  intros Hmethod. rewrite serve_preflight by now rewrite Hmethod.
  split; [apply books_logged|]. unfold logged, decodeURIComponent_pathname.
  split.
  - intros path Hpath. rewrite Hpath. repeat split.
  - intros message refused ->. now split.
Qed.

Lemma options_stops_at_cors_witness :
  status_of (serve Sample.allow_get_post Sample.shelf
               (Sample.request_for "OPTIONS" "/books/1" (Some (DeleteBook "1")) None))
  = 204%nat
  /\ books_of (serve Sample.allow_get_post Sample.shelf
                 (Sample.request_for "OPTIONS" "/books/1" (Some (DeleteBook "1")) None))
     = Sample.shelf
  /\ fst (serve Sample.allow_get_post Sample.shelf (Sample.malformed "OPTIONS"))
     = Throw (URIError "URI malformed").
Proof.
  destruct (options_stops_at_cors Sample.allow_get_post Sample.shelf
              (Sample.request_for "OPTIONS" "/books/1" (Some (DeleteBook "1")) None)
              eq_refl) as (Hm & Hdecoded & _).
  destruct (options_stops_at_cors Sample.allow_get_post Sample.shelf
              (Sample.malformed "OPTIONS") eq_refl) as (_ & _ & Hmalformed).
  destruct (Hdecoded "/books/1" eq_refl) as (_ & Hs & _).
  destruct (Hmalformed "URI malformed" true eq_refl) as (Hthrow & _).
  repeat split; assumption.
Defined.

(** X3: a request that matches one of the two GET routes, or no route at
    all, never changes the map, found or not, and the program answers it
    whenever its path decodes. *)
Theorem reading_leaves_the_map allowedMethods m req :
  reads_only (matched req) = true ->
  books_of (serve allowedMethods m req) = m
  /\ (forall path, decodeURIComponent_pathname req = Ok path ->
        completed (serve allowedMethods m req)).
Proof.
  intros Hreads.
  destruct (String.eqb (method req) "OPTIONS") eqn:Hmethod.
  { rewrite serve_preflight by assumption. split; [apply books_logged|].
    intros path Hpath. now rewrite (logged_decodes req path). }
  destruct (matched req) as [[|id| |id|id]|] eqn:Hmatched; try discriminate.
  - rewrite (serve_matched _ _ _ GetBooks) by assumption. now split.
  - rewrite (serve_matched _ _ _ (GetBook id)) by assumption.
    cbn [dispatch]. unfold handle_get_book. unfold_monad. unfold read_books.
    cbn [books entered].
    destruct (Books.get (Books.key id) m) as [b|]; [|now split].
    destruct (truthy (Some b)); now split.
  - rewrite serve_unmatched by assumption. split; [now apply books_unrouted|].
    intros path Hpath. now rewrite (unrouted_decodes req path).
Qed.

Lemma reading_leaves_the_map_witness :
  books_of (serve Sample.allow_get_post Sample.shelf (Sample.get_book "9"))
  = Sample.shelf
  /\ books_of (serve Sample.allow_get_post Sample.shelf (Sample.malformed "GET"))
     = Sample.shelf.
Proof.
  destruct (reading_leaves_the_map Sample.allow_get_post Sample.shelf
              (Sample.get_book "9") eq_refl) as (Hfound & _).
  destruct (reading_leaves_the_map Sample.allow_get_post Sample.shelf
              (Sample.malformed "GET") eq_refl) as (Hmalformed & _).
  split; assumption.
Defined.

(** X4: a request other than OPTIONS whose path decodes and matches no
    route is answered by [notFound]: when the library's [allowedMethods]
    leaves that response alone, the status is 404 and the body is the HTML
    page that names the request URL. *)
Theorem unmatched_gets_the_page allowedMethods m req path :
  method req <> "OPTIONS" -> resolved req = Unrouted path ->
  (forall r, allowedMethods req r = r) ->
  completed (serve allowedMethods m req)
  /\ status_of (serve allowedMethods m req) = 404%nat
  /\ body_of (serve allowedMethods m req) = Some (not_found_page req)
  /\ books_of (serve allowedMethods m req) = m.
Proof.
  intros Hmethod Hresolved Hsame.
  rewrite serve_unmatched
    by (try (now apply String.eqb_neq); unfold matched; now rewrite Hresolved).
  rewrite (unrouted_decodes req path)
    by (unfold decodeURIComponent_pathname; now rewrite Hresolved).
  unfold completed, status_of, body_of, books_of.
  cbn [fst snd stamped with_response books response]. rewrite Hsame.
  repeat split.
Qed.

Lemma unmatched_gets_the_page_witness :
  body_of (serve (fun _ r => r) Sample.shelf
             (Sample.request_for "GET" "/authors" None None))
  = Some (JStr ("<html><body><h1>404 - Not Found</h1><p>Path <code>"
                ++ "http://127.0.0.1:8000/authors" ++ "</code> not found.")).
Proof.
  apply (unmatched_gets_the_page (fun _ r => r) Sample.shelf
           (Sample.request_for "GET" "/authors" None None) "/authors").
  - discriminate.
  - reflexivity.
  - reflexivity.
Defined.

End Reading.

(* ===================================================================== *)
(** ** Response time, log and errors                                      *)
(* ===================================================================== *)

Module Errors.
Import Js Oak Main Spec JsFacts BooksFacts StackFacts HandlerFacts StepFacts
  OrderFacts.

Lemma initial_header_absent ep req m :
  header_get "X-Response-Time"
    (headers (response (snd (dispatch ep req (entered m))))) = None.
Proof. now rewrite Cors.dispatch_headers. Qed.

Lemma logged_report req w :
  match fst (logged req w) with
  | Ok _ =>
      header_of "X-Response-Time" (logged req w) = Some (response_time_value req)
      /\ console_of (logged req w) = console w ++ [request_line req]
  | Throw e =>
      decodeURIComponent_pathname req = Throw e
      /\ header_of "X-Response-Time" (logged req w)
         = Some (response_time_value req)
      /\ console_of (logged req w) = console w
  end.
Proof.
  unfold logged, header_of, console_of.
  destruct (decodeURIComponent_pathname req); cbn [fst snd].
  - split; [apply header_get_set_eq | reflexivity].
  - repeat split. apply header_get_set_eq.
Qed.

Lemma undecodable_throws req message refused :
  resolved req = Undecodable message refused ->
  decodeURIComponent_pathname req = Throw (URIError message).
Proof. unfold decodeURIComponent_pathname. now intros ->. Qed.

(** X5: a request that the stack completes leaves exactly one line on the
    console, written by the logger with the time that the response carries
    in [X-Response-Time].  No typed HTTP error ever leaves the stack.  When
    the stack does not complete although the path decodes, the error was
    logged by the error handler, it is the only thing logged and the
    response has no [X-Response-Time].  When the path does not decode the
    error is the [URIError] of the decoding: thrown by the router, for a
    request other than OPTIONS on which the router fails, and then logged
    by the error handler like any other; thrown by the logger otherwise,
    and then nothing is logged and the response time was already set. *)
Theorem timed_and_logged allowedMethods m req :
  match fst (serve allowedMethods m req) with
  | Ok _ =>
      header_of "X-Response-Time" (serve allowedMethods m req)
      = Some (response_time_value req)
      /\ console_of (serve allowedMethods m req) = [request_line req]
  | Throw e =>
      isHttpError e = false
      /\ (forall path, decodeURIComponent_pathname req = Ok path ->
            header_of "X-Response-Time" (serve allowedMethods m req) = None
            /\ console_of (serve allowedMethods m req) = [LogThrown e])
      /\ (forall message refused,
            resolved req = Undecodable message refused ->
            e = URIError message
            /\ if negb (String.eqb (method req) "OPTIONS") && refused
               then header_of "X-Response-Time" (serve allowedMethods m req)
                    = None
                    /\ console_of (serve allowedMethods m req) = [LogThrown e]
               else header_of "X-Response-Time" (serve allowedMethods m req)
                    = Some (response_time_value req)
                    /\ console_of (serve allowedMethods m req) = [])
  end.
Proof.
  destruct (String.eqb (method req) "OPTIONS") eqn:Hmethod.
  { rewrite serve_preflight by assumption.
    match goal with |- context [logged req ?w] =>
      pose proof (logged_report req w) as H;
      destruct (fst (logged req w)) as [[]|e]
    end; [exact H|].
    destruct H as (He & Hheader & Hconsole). split; [|split].
    - unfold decodeURIComponent_pathname in He.
      destruct (resolved req); now inversion He.
    - intros path Hpath. congruence.
    - intros message refused Hmessage.
      rewrite (undecodable_throws req message refused Hmessage) in He.
      inversion He. subst e. now cbn. }
  destruct (matched req) as [ep|] eqn:Hmatched.
  2: { rewrite serve_unmatched by assumption. unfold unrouted.
       destruct (refused_by_router req) as [e|] eqn:Hrefused.
       - unfold refused_by_router in Hrefused.
         destruct (resolved req) as [ep path|path|message []] eqn:Hresolved;
           try discriminate.
         injection Hrefused as <-. cbn [fst]. split; [reflexivity|]. split.
         + intros path Hpath. unfold decodeURIComponent_pathname in Hpath.
           rewrite Hresolved in Hpath. discriminate.
         + intros message' refused' [= <- <-]. now cbn.
       - match goal with |- context [logged req ?w] =>
           pose proof (logged_report req w) as H;
           destruct (fst (logged req w)) as [[]|e]
         end; [exact H|].
         destruct H as (He & Hheader & Hconsole). split; [|split].
         + unfold decodeURIComponent_pathname in He.
           destruct (resolved req); now inversion He.
         + intros path Hpath. congruence.
         + intros message refused Hmessage.
           rewrite (undecodable_throws req message refused Hmessage) in He.
           inversion He. subst e.
           unfold refused_by_router in Hrefused. rewrite Hmessage in Hrefused.
           destruct refused; [discriminate|]. now cbn. }
  rewrite (serve_matched _ _ _ ep) by assumption.
  unfold header_of, console_of.
  pose proof (dispatch_console ep req (entered m)) as Hconsole.
  pose proof (initial_header_absent ep req m) as Hheader.
  assert (Hrouted : forall message refused,
            resolved req <> Undecodable message refused).
  { intros message refused H. unfold matched in Hmatched.
    now rewrite H in Hmatched. }
  destruct (dispatch ep req (entered m)) as [[[]|[s message stack|msg|msg|msg]] w];
    cbn [fst snd wrap] in *.
  - split; [apply header_get_set_eq|].
    cbn [stamped console]. now rewrite Hconsole.
  - split; [apply header_get_set_eq|].
    cbn [stamped with_response console]. now rewrite Hconsole.
  - repeat split; auto; try (now intros; exfalso; eapply Hrouted; eauto);
      cbn [thrown_logged console]; now rewrite Hconsole.
  - repeat split; auto; try (now intros; exfalso; eapply Hrouted; eauto);
      cbn [thrown_logged console]; now rewrite Hconsole.
  - repeat split; auto; try (now intros; exfalso; eapply Hrouted; eauto);
      cbn [thrown_logged console]; now rewrite Hconsole.
Qed.

(** X6: the typed error with which Create refuses a request without a
    body is rendered by the error handler according to what the client
    accepts: a JSON object with [message], [status] and [stack] and the type
    [json], or else one text with the status, the message and the stack and
    the type [text/plain].  The status is 400 either way. *)
Theorem create_refusal_rendered allowedMethods m req :
  method req = "POST" -> matched req = Some PostBooks -> hasBody req = false ->
  status_of (serve allowedMethods m req) = 400%nat
  /\ (accepts_json req = true ->
        body_of (serve allowedMethods m req)
        = Some (error_json 400 "Bad Request: No data provided" (thrown_stack req))
        /\ type_of (serve allowedMethods m req) = Some "json")
  /\ (accepts_json req = false ->
        body_of (serve allowedMethods m req)
        = Some (error_text 400 "Bad Request: No data provided" (thrown_stack req))
        /\ type_of (serve allowedMethods m req) = Some "text/plain").
Proof.
  intros Hmethod Hmatched Hbody. enter PostBooks.
  rewrite handle_post_books_no_body by assumption.
  unfold status_of, body_of, type_of, final_status.
  cbn [wrap snd stamped with_response response rendered entered].
  unfold rendered.
  split; [|split]; intros; destruct (accepts_json req); try discriminate;
    auto.
Qed.

Lemma create_refusal_rendered_witness :
  body_of (serve Sample.allow_get_post Sample.shelf (Sample.post_books None))
  = Some (JObj [("message", JStr "Bad Request: No data provided");
                ("status", JNum 400);
                ("stack", JStr "BadRequestError: Bad Request")])
  /\ type_of (serve Sample.allow_get_post Sample.shelf
                (Sample.as_text_client (Sample.post_books None)))
     = Some "text/plain".
Proof.
  destruct (create_refusal_rendered Sample.allow_get_post Sample.shelf
              (Sample.post_books None) eq_refl eq_refl eq_refl)
    as (_ & Hjson & _).
  destruct (create_refusal_rendered Sample.allow_get_post Sample.shelf
              (Sample.as_text_client (Sample.post_books None))
              eq_refl eq_refl eq_refl) as (_ & _ & Htext).
  split.
  - apply Hjson. reflexivity.
  - apply Htext. reflexivity.
Defined.

(** X7: when decoding the body of a Create fails, the map is as it was; a
    typed HTTP error of the library becomes the response, with the status of
    the error, and any other error leaves the stack after it was logged. *)
Theorem create_undecodable_body allowedMethods m req e :
  method req = "POST" -> matched req = Some PostBooks ->
  hasBody req = true -> body_json req = Throw e ->
  books_of (serve allowedMethods m req) = m
  /\ (forall s message stack, e = HttpError s message stack ->
        completed (serve allowedMethods m req)
        /\ status_of (serve allowedMethods m req) = s)
  /\ (isHttpError e = false ->
        fst (serve allowedMethods m req) = Throw e
        /\ console_of (serve allowedMethods m req) = [LogThrown e]).
Proof.
  intros Hmethod Hmatched Hbody Hjson. enter PostBooks.
  assert (Hrun : handle_post_books req (entered m) = (Throw e, entered m)).
  { unfold handle_post_books. unfold_monad. now rewrite Hbody, Hjson. }
  rewrite Hrun. split; [|split].
  - now destruct e.
  - intros s message stack ->. split; apply wrap_http_error.
  - intros He. destruct e; try discriminate; now split.
Qed.

Lemma create_undecodable_body_witness :
  status_of (serve Sample.allow_get_post Sample.shelf
               (Sample.with_undecodable_body
                  (HttpError 400 "Unexpected end of JSON input" None)
                  (Sample.post_books None))) = 400%nat
  /\ fst (serve Sample.allow_get_post Sample.shelf
            (Sample.with_undecodable_body (OtherError "connection reset")
               (Sample.post_books None)))
     = Throw (OtherError "connection reset").
Proof.
  destruct (create_undecodable_body Sample.allow_get_post Sample.shelf
              (Sample.with_undecodable_body
                 (HttpError 400 "Unexpected end of JSON input" None)
                 (Sample.post_books None))
              (HttpError 400 "Unexpected end of JSON input" None)
              eq_refl eq_refl eq_refl eq_refl) as (_ & Htyped & _).
  destruct (create_undecodable_body Sample.allow_get_post Sample.shelf
              (Sample.with_undecodable_body (OtherError "connection reset")
                 (Sample.post_books None))
              (OtherError "connection reset")
              eq_refl eq_refl eq_refl eq_refl) as (_ & _ & Hother).
  split.
  - now destruct (Htyped 400%nat "Unexpected end of JSON input" None eq_refl).
  - now destruct (Hother eq_refl).
Defined.

End Errors.

(* ===================================================================== *)
(** ** Where the records go                                               *)
(* ===================================================================== *)

Module Records.
Import Js Oak Main Spec JsFacts BooksFacts StackFacts HandlerFacts StepFacts
  OrderFacts.

Lemma in_values_set k v m : In v (Books.values (Books.set k v m)).
Proof.
  unfold Books.values. induction m as [|[k' v'] rest IH]; cbn; auto.
  destruct (same_value_zero k' k); cbn; auto.
Qed.

Lemma created_id_supplied req p v :
  obj_get "id" p = Some v -> truthy (Some v) = true -> created_id req p = v.
Proof. intros Hv Ht. unfold created_id, choose_id. now rewrite Hv, Ht. Qed.

(** X8: an accepted Create either overwrites the record of its key where it
    stands, so that the keys and their order are as before, or, when the
    key is new, puts the record last and leaves all the others as they
    were. *)
Theorem create_places_the_record allowedMethods m req p :
  method req = "POST" -> matched req = Some PostBooks ->
  hasBody req = true -> body_json req = Ok (JObj p) ->
  accepted_payload p ->
  (Books.has (Some (created_id req p)) m = true ->
     keys (books_of (serve allowedMethods m req)) = keys m)
  /\ (Books.has (Some (created_id req p)) m = false ->
        books_of (serve allowedMethods m req)
        = m ++ [(Some (created_id req p), JObj (created_book req p))]
        /\ Books.size (books_of (serve allowedMethods m req))
           = S (Books.size m)).
Proof.
  intros Hmethod Hmatched Hbody Hjson Hp. enter PostBooks.
  rewrite (handle_post_books_accepted req p) by assumption.
  unfold books_of. cbn [wrap snd stamped books entered]. split.
  - apply keys_set_has.
  - intros Hnew. split; [now apply set_new | now apply size_set_new].
Qed.

Lemma create_places_the_record_witness :
  books_of (serve Sample.allow_get_post Sample.shelf
              (Sample.post_books (Some (JObj Sample.emma))))
  = Sample.shelf
    ++ [(Books.key "6fa459ea-ee8a-4ca4-894e-db77e160355e",
         JObj (("id", JStr "6fa459ea-ee8a-4ca4-894e-db77e160355e")
               :: Sample.emma))].
Proof.
  destruct (create_places_the_record Sample.allow_get_post Sample.shelf
              (Sample.post_books (Some (JObj Sample.emma))) Sample.emma
              eq_refl eq_refl eq_refl eq_refl) as (_ & Hnew).
  - intros f Hf. simpl in Hf.
    repeat (destruct Hf as [<-|Hf]; [reflexivity|]). destruct Hf.
  - now destruct (Hnew eq_refl).
Defined.

(** X9: what an accepted Create stores under a string id, supplied or
    generated, is what Get then returns for that id. *)
Theorem create_then_get allowedMethods m req p id req' :
  method req = "POST" -> matched req = Some PostBooks ->
  hasBody req = true -> body_json req = Ok (JObj p) ->
  accepted_payload p ->
  created_id req p = JStr id ->
  method req' = "GET" -> matched req' = Some (GetBook id) ->
  status_of (serve allowedMethods (books_of (serve allowedMethods m req)) req')
  = 200%nat
  /\ body_of (serve allowedMethods (books_of (serve allowedMethods m req)) req')
     = body_of (serve allowedMethods m req).
Proof.
  intros Hmethod Hmatched Hbody Hjson Hp Hid Hmethod' Hmatched'.
  rewrite (serve_matched allowedMethods m req PostBooks)
    by first [assumption | eapply not_options; [eassumption | discriminate]].
  cbn [dispatch]. rewrite (handle_post_books_accepted req p) by assumption.
  unfold books_of at 1 2. cbn [wrap snd stamped books entered].
  rewrite Hid. enter (GetBook id).
  rewrite (handle_get_book_found id req' (created_book req p)).
  - now split.
  - cbn [books entered]. now apply get_set_eq.
Qed.

Lemma create_then_get_witness :
  body_of (serve Sample.allow_get_post
             (books_of (serve Sample.allow_get_post Sample.shelf
                          (Sample.post_books (Some (JObj Sample.emma)))))
             (Sample.get_book "6fa459ea-ee8a-4ca4-894e-db77e160355e"))
  = Some (JObj (("id", JStr "6fa459ea-ee8a-4ca4-894e-db77e160355e")
                :: Sample.emma)).
Proof.
  destruct (create_then_get Sample.allow_get_post Sample.shelf
              (Sample.post_books (Some (JObj Sample.emma))) Sample.emma
              "6fa459ea-ee8a-4ca4-894e-db77e160355e"
              (Sample.get_book "6fa459ea-ee8a-4ca4-894e-db77e160355e")
              eq_refl eq_refl eq_refl eq_refl) as (_ & Hb).
  - intros f Hf. simpl in Hf.
    repeat (destruct Hf as [<-|Hf]; [reflexivity|]). destruct Hf.
  - reflexivity.
  - reflexivity.
  - reflexivity.
  - rewrite Hb. reflexivity.
Defined.

(** X10: a record created with a truthy id that is not a string (a number,
    [true], an array, an object) is stored and listed, but under a key that
    no path parameter equals: what Get, Update and Delete find under any id
    is what they found before. *)
Theorem create_with_non_string_id allowedMethods m req p v :
  method req = "POST" -> matched req = Some PostBooks ->
  hasBody req = true -> body_json req = Ok (JObj p) ->
  accepted_payload p ->
  obj_get "id" p = Some v -> truthy (Some v) = true ->
  is_string (Some v) = false ->
  completed (serve allowedMethods m req)
  /\ status_of (serve allowedMethods m req) = 201%nat
  /\ In (JObj (created_book req p))
       (Books.values (books_of (serve allowedMethods m req)))
  /\ (forall id,
        Books.get (Books.key id) (books_of (serve allowedMethods m req))
        = Books.get (Books.key id) m
        /\ Books.has (Books.key id) (books_of (serve allowedMethods m req))
           = Books.has (Books.key id) m).
Proof.
  intros Hmethod Hmatched Hbody Hjson Hp Hv Htruthy Hstring. enter PostBooks.
  rewrite (handle_post_books_accepted req p) by assumption.
  unfold completed, status_of, books_of.
  cbn [wrap fst snd stamped books entered response final_status status].
  rewrite (created_id_supplied req p v) by assumption.
  repeat split.
  - apply in_values_set.
  - apply get_set_ne. now destruct v.
  - rewrite !has_get, get_set_ne; [reflexivity | now destruct v].
Qed.

Lemma create_with_non_string_id_witness :
  status_of (serve Sample.allow_get_post
               (books_of (serve Sample.allow_get_post Books.empty
                            (Sample.post_books (Some (JObj Sample.numbered)))))
               (Sample.get_book "7")) = 404%nat
  /\ Books.size (books_of (serve Sample.allow_get_post Books.empty
                             (Sample.post_books (Some (JObj Sample.numbered)))))
     = 1%nat.
Proof.
  destruct (create_with_non_string_id Sample.allow_get_post Books.empty
              (Sample.post_books (Some (JObj Sample.numbered)))
              Sample.numbered (JNum 7) eq_refl eq_refl eq_refl eq_refl)
    as (_ & _ & _ & Hunreachable).
  - intros f Hf. simpl in Hf.
    repeat (destruct Hf as [<-|Hf]; [reflexivity|]). destruct Hf.
  - reflexivity.
  - reflexivity.
  - reflexivity.
  - destruct (Hunreachable "7") as [_ Hhas]. split; reflexivity.
Defined.

(** X11: Update never adds or removes a record, whatever its body and
    whatever it answers: the keys of the map and their order are as
    before. *)
Theorem update_keeps_the_keys allowedMethods m req id :
  matched req = Some (PutBook id) ->
  keys (books_of (serve allowedMethods m req)) = keys m
  /\ Books.size (books_of (serve allowedMethods m req)) = Books.size m.
Proof.
  intros Hmatched.
  assert (H : keys (books_of (serve allowedMethods m req)) = keys m).
  { destruct (serve_cases allowedMethods m req)
      as [(ep & _ & Hep & ->)|Hsame]; [|now rewrite Hsame].
    rewrite books_wrap. rewrite Hmatched in Hep. injection Hep as <-.
    cbn [dispatch]. now rewrite handle_put_book_effect. }
  split; [exact H|]. unfold Books.size.
  unfold keys in H. now rewrite <- (length_map fst), H, length_map.
Qed.

Lemma update_keeps_the_keys_witness :
  keys (books_of (serve Sample.allow_get_post Sample.shelf
                    (Sample.put_book "1" (Some (JObj [("id", JStr "2")])))))
  = [Books.key "1"].
Proof.
  apply (update_keeps_the_keys Sample.allow_get_post Sample.shelf
           (Sample.put_book "1" (Some (JObj [("id", JStr "2")]))) "1" eq_refl).
Defined.

End Records.

(* ===================================================================== *)
(** ** Delete, Update and the loader at their edges                       *)
(* ===================================================================== *)

Module Edges.
Import Js Oak Main Spec JsFacts BooksFacts StackFacts HandlerFacts StepFacts
  Invariants OrderFacts.

(** X12: Delete of a present id removes that one record: one record fewer
    is stored and what is found under every other key is as before. *)
Theorem delete_removes_one allowedMethods m req id :
  method req = "DELETE" -> matched req = Some (DeleteBook id) ->
  id <> "" -> unique_keys m -> Books.has (Books.key id) m = true ->
  S (Books.size (books_of (serve allowedMethods m req))) = Books.size m
  /\ (forall other, same_value_zero (Books.key id) other = false ->
        Books.get other (books_of (serve allowedMethods m req))
        = Books.get other m).
Proof.
  intros Hmethod Hmatched Hid Hunique Hhas. enter (DeleteBook id).
  rewrite (handle_delete_book_found id req) by auto.
  unfold books_of. cbn [wrap snd stamped books entered]. split.
  - now apply size_delete.
  - intros other Hother. now apply get_delete_ne.
Qed.

Lemma delete_removes_one_witness :
  S (Books.size (books_of (serve Sample.allow_get_post Sample.shelf
                             (Sample.delete_book "1"))))
  = 1%nat.
Proof.
  apply (delete_removes_one Sample.allow_get_post Sample.shelf
           (Sample.delete_book "1") "1" eq_refl eq_refl).
  - discriminate.
  - split; [reflexivity | exact I].
  - reflexivity.
Defined.

(** X13: Delete of an id that is absent, and Delete with an empty id even
    when a record is stored under the empty id, is answered 404 with the
    page of [notFound] and leaves the map as it was. *)
Theorem delete_nothing allowedMethods m req id :
  method req = "DELETE" -> matched req = Some (DeleteBook id) ->
  Books.has (Books.key id) m = false \/ id = "" ->
  completed (serve allowedMethods m req)
  /\ status_of (serve allowedMethods m req) = 404%nat
  /\ body_of (serve allowedMethods m req) = Some (not_found_page req)
  /\ books_of (serve allowedMethods m req) = m.
Proof.
  intros Hmethod Hmatched Hnone. enter (DeleteBook id).
  assert (Hrun : handle_delete_book id req (entered m) = notFound req (entered m)).
  { destruct Hnone as [Hhas | ->].
    - now apply handle_delete_book_missing.
    - reflexivity. }
  rewrite Hrun. repeat split.
Qed.

Lemma delete_nothing_witness :
  status_of (serve Sample.allow_get_post [(Books.key "", JObj Sample.emma)]
               (Sample.delete_book "")) = 404%nat
  /\ books_of (serve Sample.allow_get_post [(Books.key "", JObj Sample.emma)]
                 (Sample.delete_book ""))
     = [(Books.key "", JObj Sample.emma)].
Proof.
  destruct (delete_nothing Sample.allow_get_post
              [(Books.key "", JObj Sample.emma)] (Sample.delete_book "") ""
              eq_refl eq_refl) as (_ & Hs & _ & Hm).
  - now right.
  - split; assumption.
Defined.

(** X14: Update with an empty id is answered 400 with
    [{error: "ID is required"}] before the body is looked at: the answer
    is the same when the body cannot be decoded, and the map is as it
    was. *)
Theorem update_requires_id allowedMethods m req :
  method req = "PUT" -> matched req = Some (PutBook "") ->
  completed (serve allowedMethods m req)
  /\ status_of (serve allowedMethods m req) = 400%nat
  /\ body_of (serve allowedMethods m req)
     = Some (JObj [("error", JStr "ID is required")])
  /\ books_of (serve allowedMethods m req) = m.
Proof.
  intros Hmethod Hmatched. enter (PutBook ""). repeat split.
Qed.

Lemma update_requires_id_witness :
  status_of (serve Sample.allow_get_post Sample.shelf
               (Sample.with_undecodable_body (OtherError "connection reset")
                  (Sample.put_book "" None))) = 400%nat.
Proof.
  apply (update_requires_id Sample.allow_get_post Sample.shelf
           (Sample.with_undecodable_body (OtherError "connection reset")
              (Sample.put_book "" None)) eq_refl eq_refl).
Defined.

Lemma put_all_in k v items : forall m,
  In (k, v) (put_all items m) ->
  In (k, v) m \/ (In v items /\ field v "id" = k).
Proof.
  induction items as [|b rest IH]; intros m H; cbn in *; auto.
  apply IH in H as [H|[H Hk]]; [|tauto].
  apply in_set in H as [H|[= -> ->]]; auto.
Qed.

Lemma put_all_size items : forall m,
  (Books.size (put_all items m) <= Books.size m + length items)%nat.
Proof.
  induction items as [|b rest IH]; intros m; cbn [put_all fold_left length].
  { lia. }
  fold (put_all rest (Books.set (field b "id") b m)).
  specialize (IH (Books.set (field b "id") b m)).
  destruct (Books.has (field b "id") m) eqn:H.
  - rewrite size_set_has in IH by assumption. lia.
  - rewrite size_set_new in IH by assumption. lia.
Qed.

Lemma before_null_prefix items :
  (length (before_null items) <= length items)%nat
  /\ forall b, In b (before_null items) -> In b items.
Proof.
  induction items as [|c rest [IHl IHin]].
  { split; [reflexivity | intros x []]. }
  destruct c; cbn [before_null length In]; (split; [lia|]);
    intros x H; try (destruct H as [H|H]; auto); destruct H.
Qed.

(** X16: after start-up the map holds only entries of the file, each under
    the key that its own [id] names (all entries without an id under the
    one key [undefined]); no two records share a key, and there are at most
    as many records as the array has entries. *)
Theorem loaded_records_come_from_the_file f serverType :
  unique_keys (books_of (startup f serverType))
  /\ (forall k v, In (k, v) (books_of (startup f serverType)) ->
        exists items, f = Parsed (JArr items) /\ In v items
                      /\ field v "id" = k)
  /\ (forall items, f = Parsed (JArr items) ->
        (Books.size (books_of (startup f serverType)) <= length items)%nat).
Proof.
  rewrite Loader.startup_run. unfold books_of. cbn [snd books].
  split; [|split].
  - destruct f as [e|e|[| | | |items|]]; cbn [loaded]; try exact I.
    now apply put_all_unique_keys.
  - intros k v Hin.
    destruct f as [e|e|[| | | |items|]]; cbn [loaded] in Hin; try destruct Hin.
    apply put_all_in in Hin as [[]|[Hv Hk]].
    exists items. repeat split; auto. now apply before_null_prefix.
  - intros items ->. cbn [loaded].
    pose proof (put_all_size (before_null items) Books.empty) as Hsize.
    destruct (before_null_prefix items) as [Hlen _]. cbn in Hsize. lia.
Qed.

(** X17: of all requests only a Create can put a key into the map and only
    a Delete can take one out: after any request that is not routed to
    Delete every key of the map is still there, and after any request that
    is not routed to Create every key of the map was there before. *)
Theorem only_create_adds_only_delete_removes allowedMethods m req k :
  (matched req <> Some PostBooks ->
     Books.has k (books_of (serve allowedMethods m req)) = true ->
     Books.has k m = true)
  /\ ((forall id, matched req <> Some (DeleteBook id)) ->
        Books.has k m = true ->
        Books.has k (books_of (serve allowedMethods m req)) = true).
Proof.
  destruct (serve_cases allowedMethods m req)
    as [(ep & _ & Hep & ->)|Hsame]; [|rewrite Hsame; tauto].
  rewrite books_wrap, Hep.
  destruct ep as [|id| |id|id]; cbn [dispatch].
  - cbn. tauto.
  - rewrite handle_get_book_effect. cbn. tauto.
  - split; [congruence|]. intros _ Hk.
    destruct (handle_post_books_effect req (entered m))
      as [->|(p & _ & _ & _ & ->)]; [exact Hk|].
    cbn [books entered]. now rewrite has_set, Hk.
  - rewrite handle_put_book_effect. cbn. tauto.
  - split; [|intros H; now destruct (H id)].
    intros _.
    destruct (handle_delete_book_effect id req (entered m)) as [->| ->];
      [cbn; tauto|].
    cbn [books entered]. apply has_delete_le.
Qed.

Lemma only_create_adds_only_delete_removes_witness :
  Books.has (Books.key "1")
    (books_of (serve Sample.allow_get_post Sample.shelf
                 (Sample.put_book "1" (Some (JObj [("id", JStr "2")])))))
  = true.
Proof.
  destruct (only_create_adds_only_delete_removes Sample.allow_get_post
              Sample.shelf
              (Sample.put_book "1" (Some (JObj [("id", JStr "2")])))
              (Books.key "1")) as (_ & Hkept).
  apply Hkept.
  - discriminate.
  - reflexivity.
Defined.

End Edges.
